(** * Cross-match pattern mining (pattern_analyzer.py)

    A shallow embedding of the pattern-mining core of the repository:
    the similarity engine, the fingerprint builder, the enrichment pass,
    the greedy clusterer and the statistical scorer, followed by the
    properties stated about them.

    Conventions of the embedding.
    - A Python [float] is an exact rational ([Q]) and float results are
      compared with [Qeq], [Qle], [Qlt]; the rounding error of the binary
      representation is outside the model.
    - A Python [int] is a [Z]; a [len] is a [nat].
    - A Python [str] is a [string] (a byte string; only ASCII letters have
      a case, only ASCII white space is stripped); [set[str]] is a
      [gset string].
    - A Python exception is the left injection of [result].
    - A dictionary read with [d.get(key, default)] is a record of [option]
      fields, [None] standing for a missing key.
    - The collaborators that live outside the analysed module
      ([risk_engine], [data_loader], [danger_detector], [math], [scipy])
      are parameters. *)

From Stdlib Require Import ZArith QArith Qround Qminmax Qpower Lqa Lia.
From Stdlib Require Import String Ascii.
From Stdlib Require Import Sorted.
From stdpp Require Import base gmap sets list strings.

Local Open Scope string_scope.
Local Open Scope list_scope.
Local Open Scope Z_scope.

(** * Part I: the program *)

(** ** Exceptions *)

Inductive exn : Type :=
  | ValueError (msg : string)
  | KeyError (key : string)
  | ZeroDivisionError.

Definition result (A : Type) : Type := (exn + A)%type.

Definition ret {A} (a : A) : result A := inr a.
Definition raise {A} (e : exn) : result A := inl e.
Definition bind {A B} (m : result A) (k : A -> result B) : result B :=
  match m with
  | inl e => inl e
  | inr a => k a
  end.

Notation "'do' x <- m ; k" := (bind m (fun x => k))
  (at level 10, x name, m at level 100, k at level 200).

(** ** Python built-ins used by the module *)

(** True division [x / y]. *)
Definition py_div (x y : Q) : result Q :=
  if Qeq_bool y 0 then raise ZeroDivisionError else ret (x / y)%Q.

(** [x < y] on numbers. *)
Definition Qlt_bool (x y : Q) : bool := negb (Qle_bool y x).

(** [min(x, y)] on numbers: [y] when [y < x], otherwise [x]. *)
Definition py_min (x y : Q) : Q :=
  if Qle_bool x y then x else y.

(** [round(x, ndigits)]: the nearest multiple of [10^-ndigits], ties going
    to the even multiple. *)
Definition round_half_even (y : Q) : Z :=
  let f := Qfloor y in
  match Qcompare (y - inject_Z f) (1 # 2) with
  | Lt => f
  | Gt => f + 1
  | Eq => if Z.even f then f else f + 1
  end.

Definition py_round (x : Q) (ndigits : nat) : Q :=
  (inject_Z (round_half_even (x * inject_Z (10 ^ Z.of_nat ndigits)))
   / inject_Z (10 ^ Z.of_nat ndigits))%Q.

(** [l[:k]]: the first [k] items, or all but the last [-k] when [k < 0]. *)
Definition py_slice_to {A} (l : list A) (k : Z) : list A :=
  if k <? 0 then take (length l - Z.to_nat (- k)) l
  else take (Z.to_nat k) l.

(** [list.sort] and [sorted].  [before x y] says that [x] may stand before
    [y]: [key x <= key y], or [key x >= key y] under [reverse=True].  The
    sort is stable: items that may stand either way keep their order. *)
Fixpoint sort_insert {A} (before : A -> A -> bool) (x : A) (l : list A) : list A :=
  match l with
  | [] => [x]
  | y :: l' => if before x y then x :: y :: l' else y :: sort_insert before x l'
  end.

Definition stable_sort {A} (before : A -> A -> bool) (l : list A) : list A :=
  foldr (sort_insert before) [] l.

(** [str.lower()] and [str.strip()]. *)
Definition lower_ascii (c : ascii) : ascii :=
  let n := nat_of_ascii c in
  if ((65 <=? n) && (n <=? 90))%nat then ascii_of_nat (n + 32) else c.

Fixpoint lower (s : string) : string :=
  match s with
  | EmptyString => EmptyString
  | String c s' => String (lower_ascii c) (lower s')
  end.

Definition is_space (c : ascii) : bool :=
  let n := nat_of_ascii c in
  (((9 <=? n) && (n <=? 13)) || ((28 <=? n) && (n <=? 32)))%nat.

Fixpoint lstrip (s : string) : string :=
  match s with
  | EmptyString => EmptyString
  | String c s' => if is_space c then lstrip s' else s
  end.

Fixpoint rstrip (s : string) : string :=
  match s with
  | EmptyString => EmptyString
  | String c s' =>
      match rstrip s' with
      | EmptyString => if is_space c then EmptyString else String c EmptyString
      | t => String c t
      end
  end.

Definition strip (s : string) : string := rstrip (lstrip s).

(** ** Config *)

Definition DEFAULT_FINGERPRINT_WINDOW_SEC : Z := 60.

Definition DEFAULT_STOPWORDS : gset string :=
  {[ "BUILD UP"; "GOALS"; "SET PIECES"; "PLAYERS IN THE BOX";
     "BALL IN FINAL THIRD"; "BALL IN THE BOX" ]}.

Definition DEFAULT_TOP_K_CODES : Z := 4.

Definition DEFAULT_MIN_SUBSEQ_SIMILARITY : Q := 85 # 100.
Definition DEFAULT_MIN_MATCH_FREQUENCY : Z := 2.

Definition MIN_PATTERN_LEN : nat := 2.

Definition CONF_TIER_HIGH : Q := 70 # 100.
Definition CONF_TIER_MED : Q := 45 # 100.

Definition CAUSE_CODES : gset string :=
  {[ "ATTACKING TRANSITION"; "DEFENSIVE TRANSITION"; "PROGRESSION";
     "CREATING CHANCES" ]}.

Definition REQUIRE_CAUSE_CODE : bool := true.

(** ** Helpers: sequence similarity *)

(** [any(x == y for y in it)]: consumes the iterator up to and including
    the first item equal to [x] and returns what is left of it. *)
Fixpoint any_eq (x : string) (it : list string) : bool * list string :=
  match it with
  | [] => (false, [])
  | y :: it' => if String.eqb x y then (true, it') else any_eq x it'
  end.

(** [all(any(x == y for y in it) for x in shorter)] over the one shared
    iterator [it]. *)
Fixpoint all_any (shorter it : list string) : bool :=
  match shorter with
  | [] => true
  | x :: rest =>
      let '(found, it') := any_eq x it in
      if found then all_any rest it' else false
  end.

Definition _is_subsequence (shorter longer : list string) : bool :=
  match shorter with
  | [] => true
  | _ => all_any shorter longer
  end.

(** [n / d] for two lengths. *)
Definition ratio (n d : nat) : Q :=
  (inject_Z (Z.of_nat n) / inject_Z (Z.of_nat d))%Q.

Definition subseq_similarity (a b : list string) : Q :=
  match a, b with
  | [], [] => 1%Q
  | [], _ | _, [] => 0%Q
  | _, _ =>
      if (length a <=? length b)%nat then
        let overlap := if _is_subsequence a b then length a else 0%nat in
        ratio overlap (Nat.max (length a) (length b))
      else
        let overlap := if _is_subsequence b a then length b else 0%nat in
        ratio overlap (Nat.max (length a) (length b))
  end.

(** The two sequences ordered by length, as [subseq_similarity] orders
    them: on equal length the first argument is the shorter one. *)
Definition shorter_of (a b : list string) : list string :=
  if (length a <=? length b)%nat then a else b.

Definition longer_of (a b : list string) : list string :=
  if (length a <=? length b)%nat then b else a.

(** ** The risk timeline *)

(** One item of an [active_events] list. [str_of_item] is Python's [str]
    of the item; for a dictionary, [item_code] is its ["code"] entry. *)
Inductive Item : Type :=
  | IStr (s : string)
  | IDict (code : option string) (repr : string)
  | IOther (repr : string).

Definition str_of_item (x : Item) : string :=
  match x with
  | IStr s => s
  | IDict _ repr => repr
  | IOther repr => repr
  end.

(** A cell of the [active_events] column. *)
Inductive ActiveEvents : Type :=
  | AENone
  | AENaN
  | AEList (items : list Item)
  | AEStr (s : string)
  | AEOther.

Module Row.
Record t : Type := mk {
  timestamp_sec : Z;
  active_events : ActiveEvents
}.
End Row.

(** A data frame: the names of its columns and its rows in storage order.
    A field of a row is meaningful only when its column is listed. *)
Module DataFrame.
Record t : Type := mk {
  columns : list string;
  rows : list Row.t
}.
End DataFrame.

Definition has_column (c : string) (columns : list string) : bool :=
  bool_decide (c ∈ columns).

(** ** Helpers: fingerprint building *)

Definition _has_cause_code (seq : list string) : bool :=
  existsb (fun c => bool_decide (c ∈ CAUSE_CODES)) seq.

Definition _normalize_active_events_to_codes (active_events : ActiveEvents)
  : list string :=
  match active_events with
  | AENone => []
  | AENaN => []
  | AEList [] => []
  | AEList ((IStr _ :: _) as items) => map str_of_item items
  | AEList ((IDict _ _ :: _) as items) =>
      flat_map (fun e =>
                  match e with
                  | IDict (Some code) _ =>
                      if String.eqb code "" then [] else [code]
                  | _ => []
                  end) items
  | AEList items => map str_of_item items
  | AEStr s => [s]
  | AEOther => []
  end.

(** The loop of [_dedupe_preserve_order], started from the set [seen]. *)
Fixpoint dedupe_from (seen : gset string) (seq : list string) : list string :=
  match seq with
  | [] => []
  | x :: rest =>
      if decide (x ∈ seen) then dedupe_from seen rest
      else x :: dedupe_from ({[ x ]} ∪ seen) rest
  end.

Definition _dedupe_preserve_order (seq : list string) : list string :=
  dedupe_from ∅ seq.

Section Fingerprint.

(** The two weight tables of [risk_engine]. *)
Variables OPPONENT_WEIGHTS BARCA_WEIGHTS : gmap string Q.

Definition _code_weight (code : string) : Q :=
  let o := default 0%Q (OPPONENT_WEIGHTS !! code) in
  let b := default 0%Q (BARCA_WEIGHTS !! code) in
  (* max(o, b): [b] when [b > o], otherwise [o] *)
  if Qle_bool b o then o else b.

Definition _compress_sequence_keep_order (seq : list string) (top_k : Z)
  : list string :=
  match seq with
  | [] => []
  | _ =>
      let unique := _dedupe_preserve_order seq in
      let scored := map (fun c => (c, _code_weight c)) unique in
      (* scored.sort(key=lambda x: x[1], reverse=True) *)
      let scored := stable_sort (fun x y => Qle_bool (snd y) (snd x)) scored in
      let keep : gset string := list_to_set (map fst (py_slice_to scored top_k)) in
      filter (fun c => c ∈ keep) unique
  end.

(** One iteration of the walk over the window: the codes of the row that
    enter the active set, and the active set of the row. *)
Definition cur_set_of (stopwords : gset string) (codes : list string)
  : gset string :=
  list_to_set (filter (fun c => c <> "" /\ c ∉ stopwords) codes).

Definition entered_of (cur_set prev_set : gset string) (codes : list string)
  : list string :=
  filter (fun c => c ∈ cur_set /\ c ∉ prev_set) codes.

Fixpoint walk (stopwords : gset string) (prev_set : gset string)
    (window : list Row.t) : list string :=
  match window with
  | [] => []
  | row :: window' =>
      let codes := _normalize_active_events_to_codes (Row.active_events row) in
      let cur_set := cur_set_of stopwords codes in
      let entered := entered_of cur_set prev_set codes in
      entered ++ walk stopwords cur_set window'
  end.

(** [risk_df["timestamp_sec"].min()] of a frame with at least one row. *)
Definition timestamp_min (rows : list Row.t) : Z :=
  match rows with
  | [] => 0
  | r :: rows' =>
      fold_left (fun m r' => Z.min m (Row.timestamp_sec r')) rows'
                (Row.timestamp_sec r)
  end.

Definition window_rows (rows : list Row.t) (t0 t1 : Z) : list Row.t :=
  filter (fun r => t0 <= Row.timestamp_sec r /\ Row.timestamp_sec r <= t1) rows.

Definition build_fingerprint_sequence
    (risk_df : option DataFrame.t) (peak_time_sec : Z) (window_sec : Z)
    (stopwords : option (gset string)) (top_k : Z) : list string :=
  let stopwords := default DEFAULT_STOPWORDS stopwords in
  match risk_df with
  | None => []
  | Some risk_df =>
      if (length (DataFrame.rows risk_df) =? 0)%nat then []
      else if negb (has_column "timestamp_sec" (DataFrame.columns risk_df))
              || negb (has_column "active_events" (DataFrame.columns risk_df))
      then []
      else
        let t0 := Z.max (peak_time_sec - window_sec)
                        (timestamp_min (DataFrame.rows risk_df)) in
        let t1 := peak_time_sec in
        let window := window_rows (DataFrame.rows risk_df) t0 t1 in
        let seq := walk stopwords ∅ window in
        let seq := _dedupe_preserve_order seq in
        _compress_sequence_keep_order seq top_k
  end.

End Fingerprint.

(** ** Danger moments *)

(** A danger moment is a dictionary; every key may be missing. *)
Module Danger.
Record t : Type := mk {
  match_name : option string;
  peak_time : option Z;
  peak_score : option Q;
  severity : option string;
  resulted_in_goal : option bool;
  nexus_timestamp : option string;
  fingerprint_seq : option (list string);
  time_to_goal_sec : option Z
}.
End Danger.

(** ** The raw event log *)

(** [cell col] is [int(v)] for the value [v] of the row in column [col],
    and [None] where that conversion raises. *)
Module EventRow.
Record t : Type := mk {
  code : string;
  Team : string;
  cell : string -> option Z
}.
End EventRow.

Module EventsDF.
Record t : Type := mk {
  columns : list string;
  rows : list EventRow.t
}.
End EventsDF.

(** ** Helpers: goal time enrichment *)

Definition start_col_of (columns : list string) : option string :=
  head (filter (fun c => c ∈ columns)
               ["start_sec"; "start"; "Start"; "start_time"; "StartTime"]).

Definition _get_opponent_goal_times (events_df : option EventsDF.t) : list Z :=
  match events_df with
  | None => []
  | Some events_df =>
      if (length (EventsDF.rows events_df) =? 0)%nat then []
      else
        match start_col_of (EventsDF.columns events_df) with
        | None => []
        | Some start_col =>
            if negb (has_column "code" (EventsDF.columns events_df))
               || negb (has_column "Team" (EventsDF.columns events_df))
            then []
            else
              let goals :=
                filter (fun r => EventRow.code r = "GOALS") (EventsDF.rows events_df) in
              let goals :=
                filter (fun r => lower (EventRow.Team r) <> "barça") goals in
              let times := omap (fun r => EventRow.cell r start_col) goals in
              stable_sort Z.leb times
        end
  end.

Fixpoint first_goal_from (peak_time : Z) (opponent_goal_times : list Z)
    (max_lookahead : Z) : option Z :=
  match opponent_goal_times with
  | [] => None
  | gt :: rest =>
      if peak_time <=? gt then
        let delta := gt - peak_time in
        if delta <=? max_lookahead then Some delta else None
      else first_goal_from peak_time rest max_lookahead
  end.

Definition _next_goal_delta_sec (peak_time : Z) (opponent_goal_times : list Z)
    (max_lookahead : Z) : option Z :=
  match opponent_goal_times with
  | [] => None
  | _ => first_goal_from peak_time opponent_goal_times max_lookahead
  end.

(** ** Build danger moments for patterning *)

Module DetectParams.
Record t : Type := mk {
  peak_percentile : Q;
  threshold_floor : Q;
  min_distance : Z;
  prominence : Q;
  goal_lookback : Z;
  merge_within_sec : Z
}.
End DetectParams.

Definition mode_error : exn :=
  ValueError "mode must be one of: 'all', 'goals', 'critical'".

(** [(mode or "all").lower().strip()] *)
Definition normalize_mode (mode : option string) : string :=
  let m := match mode with
           | None => "all"
           | Some s => if String.eqb s "" then "all" else s
           end in
  strip (lower m).

Definition filter_by_mode (mode : string) (dangers : list Danger.t)
  : list Danger.t :=
  if String.eqb mode "goals" then
    filter (fun d => default false (Danger.resulted_in_goal d) = true) dangers
  else if String.eqb mode "critical" then
    filter (fun d => lower (default "" (Danger.severity d)) = "critical") dangers
  else dangers.

Section Orchestrator.

Variables OPPONENT_WEIGHTS BARCA_WEIGHTS : gmap string Q.

(** The collaborators: [data_loader.load_events],
    [risk_engine.compute_risk_score] and
    [danger_detector.detect_danger_moments]. *)
Variable load_events : string -> option EventsDF.t.
Variable compute_risk_score : option EventsDF.t -> option DataFrame.t.
Variable detect_danger_moments :
  option DataFrame.t -> option EventsDF.t -> DetectParams.t -> list Danger.t.

(** The body of [for d in dangers]. *)
Definition enrich (match_name : string) (risk_df : option DataFrame.t)
    (opp_goal_times : list Z) (time_to_goal_lookahead_sec : Z)
    (d : Danger.t) : result Danger.t :=
  match Danger.peak_time d with
  | None => raise (KeyError "peak_time")
  | Some peak_time =>
      let seq :=
        build_fingerprint_sequence OPPONENT_WEIGHTS BARCA_WEIGHTS
          risk_df peak_time DEFAULT_FINGERPRINT_WINDOW_SEC
          (Some DEFAULT_STOPWORDS) DEFAULT_TOP_K_CODES in
      let time_to_goal :=
        _next_goal_delta_sec peak_time opp_goal_times
                             time_to_goal_lookahead_sec in
      ret {| Danger.match_name := Some match_name;
             Danger.peak_time := Danger.peak_time d;
             Danger.peak_score := Danger.peak_score d;
             Danger.severity := Danger.severity d;
             Danger.resulted_in_goal := Danger.resulted_in_goal d;
             Danger.nexus_timestamp := Danger.nexus_timestamp d;
             Danger.fingerprint_seq := Some seq;
             Danger.time_to_goal_sec := time_to_goal |}
  end.

Fixpoint enrich_all (match_name : string) (risk_df : option DataFrame.t)
    (opp_goal_times : list Z) (time_to_goal_lookahead_sec : Z)
    (dangers : list Danger.t) : result (list Danger.t) :=
  match dangers with
  | [] => ret []
  | d :: rest =>
      do dd <- enrich match_name risk_df opp_goal_times
                      time_to_goal_lookahead_sec d;
      do out <- enrich_all match_name risk_df opp_goal_times
                           time_to_goal_lookahead_sec rest;
      ret (dd :: out)
  end.

(** The body of [for match_name in matches]: the moments of the match that
    pass the mode filter, and their enrichment. *)
Definition retained (mode : string) (params : DetectParams.t)
    (match_name : string) : list Danger.t :=
  let events_df := load_events match_name in
  let risk_df := compute_risk_score events_df in
  filter_by_mode mode (detect_danger_moments risk_df events_df params).

Definition per_match (mode : string) (params : DetectParams.t)
    (time_to_goal_lookahead_sec : Z) (match_name : string)
  : result (list Danger.t) :=
  let events_df := load_events match_name in
  let risk_df := compute_risk_score events_df in
  let dangers := retained mode params match_name in
  let opp_goal_times := _get_opponent_goal_times events_df in
  enrich_all match_name risk_df opp_goal_times time_to_goal_lookahead_sec dangers.

(** The loop over the matches.  Next to its result it returns the matches
    for which the collaborators were called, in call order. *)
Fixpoint match_loop (mode : string) (params : DetectParams.t)
    (time_to_goal_lookahead_sec : Z) (matches : list string)
  : list string * result (list Danger.t) :=
  match matches with
  | [] => ([], ret [])
  | match_name :: rest =>
      match per_match mode params time_to_goal_lookahead_sec match_name with
      | inl e => ([match_name], raise e)
      | inr dds =>
          let '(called, r) :=
            match_loop mode params time_to_goal_lookahead_sec rest in
          (match_name :: called, do out <- r; ret (dds ++ out))
      end
  end.

Definition build_all_matches_dangers_for_patterns
    (matches : list string) (mode : option string)
    (params : DetectParams.t) (time_to_goal_lookahead_sec : Z)
  : list string * result (list Danger.t) :=
  let mode := normalize_mode mode in
  if negb (bool_decide (mode ∈ ["all"; "goals"; "critical"])) then
    ([], raise mode_error)
  else match_loop mode params time_to_goal_lookahead_sec matches.

End Orchestrator.

(** ** Pattern grouping *)

Module Pattern.
Record t : Type := mk {
  sequence : list string;
  matches : gset string;
  examples : list Danger.t;
  goals_in_pattern : Z
}.
End Pattern.

(** The keyword arguments of [find_patterns]. *)
Module Params.
Record t : Type := mk {
  min_subseq_similarity : Q;
  min_match_frequency : Z;
  min_occurrences : Z;
  min_lift : Q;
  ci_level : Q;
  support_target_occ : Z;
  support_target_matches : Z
}.

Definition default : t :=
  {| min_subseq_similarity := DEFAULT_MIN_SUBSEQ_SIMILARITY;
     min_match_frequency := DEFAULT_MIN_MATCH_FREQUENCY;
     min_occurrences := 3;
     min_lift := 115 # 100;
     ci_level := 90 # 100;
     support_target_occ := 25;
     support_target_matches := 6 |}.
End Params.

(** What the module uses of [math] and [scipy.stats.beta]:
    [log1p x] is [math.log1p(x)] for [x > -1], [beta_ppf q a b] is
    [beta.ppf(q, a, b)] and [beta_cdf x a b] is [beta.cdf(x, a, b)]. *)
Module StatLib.
Record t : Type := mk {
  log1p : Q -> Q;
  beta_ppf : Q -> Z -> Z -> Q;
  beta_cdf : Q -> Z -> Z -> Q
}.
End StatLib.

Inductive Tier : Type := high | medium | low.

(** An entry of the [examples] list of a result. *)
Module Example.
Record t : Type := mk {
  match_name : option string;
  peak_time : option Z;
  peak_score : option Q;
  severity : option string;
  resulted_in_goal : option bool;
  nexus_timestamp : option string
}.
End Example.

(** A returned pattern.  [frequency] holds the two numbers [m] and [t] of
    the string ["m/t matches"]. *)
Module PatternResult.
Record t : Type := mk {
  sequence : list string;
  match_count : Z;
  frequency : Z * Z;
  occurrences : Z;
  goals_in_pattern : Z;
  pattern_goal_rate : Q;
  baseline_goal_rate : Q;
  lift : Q;
  avg_time_to_goal : option Q;
  posterior_mean : Q;
  ci_level : Q;
  ci_low : Q;
  ci_high : Q;
  p_goal_rate_gt_baseline : Q;
  confidence_score : Q;
  confidence_tier : Tier;
  example_matches : list string;
  examples : list Example.t
}.
End PatternResult.

(** [d.get("fingerprint_seq", []) or []] *)
Definition fingerprint_of (d : Danger.t) : list string :=
  default [] (Danger.fingerprint_seq d).

(** [bool(d.get("resulted_in_goal", False))] *)
Definition goal_of (d : Danger.t) : bool :=
  default false (Danger.resulted_in_goal d).

(** [d.get("match_name", "UNKNOWN")] *)
Definition match_name_of (d : Danger.t) : string :=
  default "UNKNOWN" (Danger.match_name d).

Definition is_nil {A} (l : list A) : bool :=
  match l with [] => true | _ => false end.

Definition _valid_seq (d : Danger.t) : bool :=
  let seq := fingerprint_of d in
  negb (is_nil seq) && (MIN_PATTERN_LEN <=? length seq)%nat.

Definition count_if {A} (p : A -> bool) (l : list A) : Z :=
  Z.of_nat (length (List.filter p l)).

Definition base_occ (base : list Danger.t) : Z := count_if _valid_seq base.

Definition base_goals (base : list Danger.t) : Z :=
  count_if (fun d => _valid_seq d && goal_of d) base.

(** [(base_goals / base_occ) if base_occ else 0.0] *)
Definition baseline_goal_rate (base : list Danger.t) : result Q :=
  if base_occ base =? 0 then ret 0%Q
  else py_div (inject_Z (base_goals base)) (inject_Z (base_occ base)).

Definition total_matches (base : list Danger.t) : Z :=
  Z.of_nat (size (list_to_set (map match_name_of base) : gset string)).

(** *** Build clusters from [all_dangers] *)

(** The body of [if sim >= min_subseq_similarity:]. *)
Definition attach (d : Danger.t) (c : Pattern.t) : Pattern.t :=
  let seq := fingerprint_of d in
  {| Pattern.matches := {[ match_name_of d ]} ∪ Pattern.matches c;
     Pattern.examples :=
       if (length (Pattern.examples c) <? 5)%nat
       then Pattern.examples c ++ [d] else Pattern.examples c;
     Pattern.goals_in_pattern :=
       if goal_of d then Pattern.goals_in_pattern c + 1
       else Pattern.goals_in_pattern c;
     Pattern.sequence :=
       if (length seq <? length (Pattern.sequence c))%nat
       then seq else Pattern.sequence c |}.

Definition new_cluster (d : Danger.t) : Pattern.t :=
  {| Pattern.sequence := fingerprint_of d;
     Pattern.matches := {[ match_name_of d ]};
     Pattern.examples := [d];
     Pattern.goals_in_pattern := if goal_of d then 1 else 0 |}.

(** [sim >= min_subseq_similarity] for the fingerprint [seq] against the
    representative [rep]. *)
Definition similar (min_subseq_similarity : Q) (seq rep : list string) : bool :=
  Qle_bool min_subseq_similarity (subseq_similarity seq rep).

(** [for c in clusters: ... break]: the clusters after the loop, and the
    flag [placed]. *)
Fixpoint place (min_subseq_similarity : Q) (d : Danger.t)
    (clusters : list Pattern.t) : list Pattern.t * bool :=
  match clusters with
  | [] => ([], false)
  | c :: rest =>
      if similar min_subseq_similarity (fingerprint_of d) (Pattern.sequence c)
      then (attach d c :: rest, true)
      else
        let '(rest', placed) := place min_subseq_similarity d rest in
        (c :: rest', placed)
  end.

(** The tests that make the loop [continue]. *)
Definition skipped (d : Danger.t) : bool :=
  let seq := fingerprint_of d in
  is_nil seq
  || (length seq <? MIN_PATTERN_LEN)%nat
  || (REQUIRE_CAUSE_CODE && negb (_has_cause_code seq)).

(** The body of [for d in all_dangers]. *)
Definition cluster_step (min_subseq_similarity : Q)
    (clusters : list Pattern.t) (d : Danger.t) : list Pattern.t :=
  if skipped d then clusters
  else
    let '(clusters', placed) := place min_subseq_similarity d clusters in
    if placed then clusters' else clusters ++ [new_cluster d].

Definition build_clusters (min_subseq_similarity : Q)
    (all_dangers : list Danger.t) : list Pattern.t :=
  fold_left (cluster_step min_subseq_similarity) all_dangers [].

(** *** Score and filter clusters *)

(** The members of the baseline set that the re-scan of a cluster counts. *)
Definition members (min_subseq_similarity : Q) (rep : list string)
    (base : list Danger.t) : list Danger.t :=
  List.filter (fun d => _valid_seq d
                        && similar min_subseq_similarity (fingerprint_of d) rep)
              base.

Definition deltas_of (ms : list Danger.t) : list Z :=
  omap (fun d => if goal_of d then Danger.time_to_goal_sec d else None) ms.

Definition sum_Z (l : list Z) : Z := fold_left Z.add l 0.

Definition example_of (ex : Danger.t) : Example.t :=
  {| Example.match_name := Danger.match_name ex;
     Example.peak_time := Danger.peak_time ex;
     Example.peak_score := Danger.peak_score ex;
     Example.severity := Danger.severity ex;
     Example.resulted_in_goal := Danger.resulted_in_goal ex;
     Example.nexus_timestamp := Danger.nexus_timestamp ex |}.

(** [math.log1p(x)], which raises outside its domain. *)
Definition py_log1p (lib : StatLib.t) (x : Z) : result Q :=
  if x <=? -1 then raise (ValueError "math domain error")
  else ret (StatLib.log1p lib (inject_Z x)).

Definition tier_of (confidence_score : Q) : Tier :=
  if Qle_bool CONF_TIER_HIGH confidence_score then high
  else if Qle_bool CONF_TIER_MED confidence_score then medium
  else low.

Section FindPatterns.

Variable lib : StatLib.t.
Variable params : Params.t.

(** The body of [for c in clusters]: [None] when the cluster is dropped
    by a [continue], the record appended to [out] otherwise. *)
Definition score_cluster (base : list Danger.t) (baseline_goal_rate : Q)
    (c : Pattern.t) : result (option PatternResult.t) :=
  let alpha := ((1 - Params.ci_level params) / 2)%Q in
  let match_count := Z.of_nat (size (Pattern.matches c)) in
  if match_count <? Params.min_match_frequency params then ret None
  else
    let ms := members (Params.min_subseq_similarity params)
                      (Pattern.sequence c) base in
    let occurrences := Z.of_nat (length ms) in
    let goals_for_pattern := count_if goal_of ms in
    let deltas := deltas_of ms in
    if occurrences <? Params.min_occurrences params then ret None
    else
      do pattern_goal_rate <-
        (if occurrences =? 0 then ret 0%Q
         else py_div (inject_Z goals_for_pattern) (inject_Z occurrences));
      do lift <-
        (if Qlt_bool 0 baseline_goal_rate
         then py_div pattern_goal_rate baseline_goal_rate
         else ret 0%Q);
      if Qlt_bool lift (Params.min_lift params) then ret None
      else
        do avg_time_to_goal <-
          (if is_nil deltas then ret None
           else do avg <- py_div (inject_Z (sum_Z deltas))
                                 (inject_Z (Z.of_nat (length deltas)));
                ret (Some avg));
        let a_post := goals_for_pattern + 1 in
        let b_post := (occurrences - goals_for_pattern) + 1 in
        let ci_low := StatLib.beta_ppf lib alpha a_post b_post in
        let ci_high := StatLib.beta_ppf lib (1 - alpha)%Q a_post b_post in
        do post_mean <- py_div (inject_Z a_post) (inject_Z (a_post + b_post));
        let p_gt_baseline :=
          (1 - StatLib.beta_cdf lib baseline_goal_rate a_post b_post)%Q in
        do log_occ <- py_log1p lib occurrences;
        do log_target <- py_log1p lib (Params.support_target_occ params);
        do occ_ratio <- py_div log_occ log_target;
        let support_occ := py_min 1 occ_ratio in
        do matches_ratio <-
          py_div (inject_Z match_count)
                 (inject_Z (Params.support_target_matches params));
        let support_matches := py_min 1 matches_ratio in
        let support_scaler :=
          ((1 # 2) * support_occ + (1 # 2) * support_matches)%Q in
        let confidence_score := (p_gt_baseline * support_scaler)%Q in
        let tier := tier_of confidence_score in
        ret (Some
          {| PatternResult.sequence := Pattern.sequence c;
             PatternResult.match_count := match_count;
             PatternResult.frequency := (match_count, total_matches base);
             PatternResult.occurrences := occurrences;
             PatternResult.goals_in_pattern := goals_for_pattern;
             PatternResult.pattern_goal_rate := py_round pattern_goal_rate 4;
             PatternResult.baseline_goal_rate := py_round baseline_goal_rate 4;
             PatternResult.lift := py_round lift 3;
             PatternResult.avg_time_to_goal :=
               option_map (fun x => py_round x 2) avg_time_to_goal;
             PatternResult.posterior_mean := py_round post_mean 4;
             PatternResult.ci_level := Params.ci_level params;
             PatternResult.ci_low := py_round ci_low 4;
             PatternResult.ci_high := py_round ci_high 4;
             PatternResult.p_goal_rate_gt_baseline := py_round p_gt_baseline 4;
             PatternResult.confidence_score := py_round confidence_score 4;
             PatternResult.confidence_tier := tier;
             PatternResult.example_matches :=
               take 5 (stable_sort String.leb (elements (Pattern.matches c)));
             PatternResult.examples := map example_of (Pattern.examples c) |}).

Fixpoint score_clusters (base : list Danger.t) (baseline_goal_rate : Q)
    (clusters : list Pattern.t) : result (list PatternResult.t) :=
  match clusters with
  | [] => ret []
  | c :: rest =>
      do r <- score_cluster base baseline_goal_rate c;
      do out <- score_clusters base baseline_goal_rate rest;
      ret (match r with Some p => p :: out | None => out end)
  end.

(** The sort key [(confidence_score, lift, match_count, occurrences)] and
    the comparison [key p >= key q] of two such tuples. *)
Definition sort_key (p : PatternResult.t) : Q * Q * Z * Z :=
  (PatternResult.confidence_score p, PatternResult.lift p,
   PatternResult.match_count p, PatternResult.occurrences p).

Definition key_ge (k1 k2 : Q * Q * Z * Z) : bool :=
  let '(c1, l1, m1, o1) := k1 in
  let '(c2, l2, m2, o2) := k2 in
  match Qcompare c1 c2 with
  | Gt => true
  | Lt => false
  | Eq =>
      match Qcompare l1 l2 with
      | Gt => true
      | Lt => false
      | Eq =>
          match Z.compare m1 m2 with
          | Gt => true
          | Lt => false
          | Eq => o2 <=? o1
          end
      end
  end.

(** [p] may stand before [q] in the sorted output. *)
Definition precedes (p q : PatternResult.t) : bool :=
  key_ge (sort_key p) (sort_key q).

Definition find_patterns (all_dangers : list Danger.t)
    (baseline_dangers : option (list Danger.t))
  : result (list PatternResult.t) :=
  let base := default all_dangers baseline_dangers in
  do baseline_goal_rate <- baseline_goal_rate base;
  let clusters :=
    build_clusters (Params.min_subseq_similarity params) all_dangers in
  do out <- score_clusters base baseline_goal_rate clusters;
  (* out.sort(key=..., reverse=True) *)
  ret (stable_sort precedes out).

End FindPatterns.


(** ** Formatter for the language model *)

Section Formatter.

(** The values of a pattern dictionary, of which the formatter needs
    [None] and the empty list. *)
Context {V : Type}.
Variable py_None : V.
Variable py_empty_list : V.

(** [p.get(key, dflt)] *)
Definition dict_get (p : gmap string V) (key : string) (dflt : V) : V :=
  default dflt (p !! key).

(** The dictionary appended to [out] for the pattern [p]. *)
Definition llm_fields (p : gmap string V) : gmap string V :=
  list_to_map
    [("sequence", dict_get p "sequence" py_empty_list);
     ("frequency", dict_get p "frequency" py_None);
     ("example_matches", dict_get p "example_matches" py_empty_list);
     ("avg_time_to_goal", dict_get p "avg_time_to_goal" py_None);
     ("confidence_score", dict_get p "confidence_score" py_None);
     ("confidence_tier", dict_get p "confidence_tier" py_None);
     ("lift", dict_get p "lift" py_None);
     ("occurrences", dict_get p "occurrences" py_None);
     ("goals_in_pattern", dict_get p "goals_in_pattern" py_None);
     ("pattern_goal_rate", dict_get p "pattern_goal_rate" py_None);
     ("baseline_goal_rate", dict_get p "baseline_goal_rate" py_None);
     ("p_goal_rate_gt_baseline", dict_get p "p_goal_rate_gt_baseline" py_None)].

(** [patterns] is [None] or a list; [(patterns or [])[:top_n]]. *)
Definition format_patterns_for_llm (patterns : option (list (gmap string V)))
    (top_n : Z) : list (gmap string V) :=
  map llm_fields (py_slice_to (default [] patterns) top_n).

End Formatter.

(** ** Quick test runner *)

(** The keyword defaults of [build_all_matches_dangers_for_patterns]. *)
Definition DEFAULT_DETECT_PARAMS : DetectParams.t :=
  {| DetectParams.peak_percentile := 70;
     DetectParams.threshold_floor := 40;
     DetectParams.min_distance := 35;
     DetectParams.prominence := 10;
     DetectParams.goal_lookback := 90;
     DetectParams.merge_within_sec := 60 |}.

Definition DEFAULT_TIME_TO_GOAL_LOOKAHEAD_SEC : Z := 120.

(** The keyword arguments [main] passes to [find_patterns]; the others
    keep their defaults. *)
Definition MAIN_PARAMS : Params.t :=
  {| Params.min_subseq_similarity := 85 # 100;
     Params.min_match_frequency := 2;
     Params.min_occurrences := 3;
     Params.min_lift := 115 # 100;
     Params.ci_level := Params.ci_level Params.default;
     Params.support_target_occ := Params.support_target_occ Params.default;
     Params.support_target_matches :=
       Params.support_target_matches Params.default |}.

Section Main.

Variables OPPONENT_WEIGHTS BARCA_WEIGHTS : gmap string Q.
Variable load_events : string -> option EventsDF.t.
Variable compute_risk_score : option EventsDF.t -> option DataFrame.t.
Variable detect_danger_moments :
  option DataFrame.t -> option EventsDF.t -> DetectParams.t -> list Danger.t.
Variable lib : StatLib.t.

(** [build_all_matches_dangers_for_patterns(matches, mode=mode)] *)
Definition build_with_defaults (matches : list string) (mode : string)
  : result (list Danger.t) :=
  snd (build_all_matches_dangers_for_patterns OPPONENT_WEIGHTS BARCA_WEIGHTS
         load_events compute_risk_score detect_danger_moments
         matches (Some mode) DEFAULT_DETECT_PARAMS
         DEFAULT_TIME_TO_GOAL_LOOKAHEAD_SEC).

(** The list [patterns] of [main], for the result [matches] of
    [list_matches()]; what [main] prints is left out. *)
Definition main_patterns (matches : list string)
  : result (list PatternResult.t) :=
  do baseline <- build_with_defaults matches "all";
  do goals <- build_with_defaults matches "goals";
  find_patterns lib MAIN_PARAMS goals (Some baseline).

End Main.
(** * Reference instance of the numerical library

    An executable stand-in for [math.log1p] and [scipy.stats.beta] on the
    arguments the module passes: shape parameters that are positive
    integers.  It is used to run [find_patterns] on concrete inputs; the
    general statements below hold for every library. *)

Module RefLib.

(** Binomial coefficient, by Pascal's rule. *)
Fixpoint binom (n k : nat) : Z :=
  match n, k with
  | _, O => 1
  | O, S _ => 0
  | S n', S k' => binom n' k' + binom n' k
  end.

Definition Qpow (x : Q) (n : nat) : Q := Qred (Qpower x (Z.of_nat n)).

Definition clip01 (x : Q) : Q :=
  if Qle_bool x 0 then 0%Q else if Qle_bool 1 x then 1%Q else x.

(** The regularised incomplete beta function for integer [a, b >= 1]:
    [I_x(a, b) = sum_{j=a}^{a+b-1} C(a+b-1, j) x^j (1-x)^(a+b-1-j)]. *)
Definition beta_cdf (x : Q) (a b : Z) : Q :=
  if (a <? 1) || (b <? 1) then 0%Q
  else
    let x := clip01 x in
    let n := Z.to_nat (a + b - 1) in
    let a' := Z.to_nat a in
    clip01
      (fold_right
         (fun j acc =>
            Qred (inject_Z (binom n j) * Qpow x j * Qpow (1 - x) (n - j) + acc))
         0%Q (seq a' (n + 1 - a'))).

(** The quantile by bisection of [[0, 1]]. *)
Fixpoint bisect (steps : nat) (q : Q) (a b : Z) (lo hi : Q) : Q :=
  match steps with
  | O => lo
  | S steps' =>
      let mid := Qred ((lo + hi) / 2) in
      if Qlt_bool (beta_cdf mid a b) q
      then bisect steps' q a b mid hi
      else bisect steps' q a b lo mid
  end.

Definition beta_ppf (q : Q) (a b : Z) : Q := bisect 40 q a b 0 1.

(** [atanh y = sum_k y^(2k+1) / (2k+1)], cut after [terms] summands. *)
Fixpoint atanh_series (terms : nat) (k : nat) (y : Q) : Q :=
  match terms with
  | O => 0%Q
  | S terms' =>
      Qred (Qpow y (2 * k + 1) / inject_Z (Z.of_nat (2 * k + 1))
            + atanh_series terms' (S k) y)
  end.

(** [ln m = 2 atanh ((m - 1) / (m + 1))]. *)
Definition ln_series (m : Q) : Q :=
  Qred (2 * atanh_series 30 0 (Qred ((m - 1) / (m + 1)))).

(** [ln (1 + x) = k ln 2 + ln m] where [1 + x = 2^k m] and
    [1 <= m < 2]. *)
Definition log1p (x : Q) : Q :=
  let t := (1 + x)%Q in
  let k := Z.log2 (Qfloor t) in
  let m := Qred (t / inject_Z (2 ^ k)) in
  Qred (inject_Z k * ln_series 2 + ln_series m).

Definition lib : StatLib.t :=
  {| StatLib.log1p := log1p;
     StatLib.beta_ppf := beta_ppf;
     StatLib.beta_cdf := beta_cdf |}.

End RefLib.

(** * Specification-level notions *)

(** ** The statistics of a representative against the baseline set *)

Section Statistics.

Variable lib : StatLib.t.
Variable params : Params.t.
Variable base : list Danger.t.

(** The unrounded baseline goal rate. *)
Definition rate_of_base : Q :=
  if base_occ base =? 0 then 0%Q
  else (inject_Z (base_goals base) / inject_Z (base_occ base))%Q.

Variable rep : list string.

Definition occurrences_of : Z :=
  Z.of_nat (length (members (Params.min_subseq_similarity params) rep base)).

Definition goals_of : Z :=
  count_if goal_of (members (Params.min_subseq_similarity params) rep base).

Definition goal_rate_of : Q :=
  if occurrences_of =? 0 then 0%Q
  else (inject_Z goals_of / inject_Z occurrences_of)%Q.

Definition lift_of : Q :=
  if Qlt_bool 0 rate_of_base then (goal_rate_of / rate_of_base)%Q else 0%Q.

(** Posterior [Beta(a, b)]. *)
Definition a_of : Z := goals_of + 1.
Definition b_of : Z := occurrences_of - goals_of + 1.

Definition alpha_of : Q := ((1 - Params.ci_level params) / 2)%Q.

Definition mean_of : Q := (inject_Z a_of / inject_Z (a_of + b_of))%Q.
Definition quantile_low_of : Q := StatLib.beta_ppf lib alpha_of a_of b_of.
Definition quantile_high_of : Q := StatLib.beta_ppf lib (1 - alpha_of)%Q a_of b_of.
Definition p_gt_of : Q := (1 - StatLib.beta_cdf lib rate_of_base a_of b_of)%Q.

Variable match_count : Z.

Definition support_of : Q :=
  ((1 # 2) * py_min 1 (StatLib.log1p lib (inject_Z occurrences_of)
                       / StatLib.log1p lib
                           (inject_Z (Params.support_target_occ params)))
   + (1 # 2) * py_min 1 (inject_Z match_count
                         / inject_Z (Params.support_target_matches params)))%Q.

Definition score_of : Q := (p_gt_of * support_of)%Q.

End Statistics.

(** ** Descending lexicographic order of sort keys *)

Definition key_lex_ge (k1 k2 : Q * Q * Z * Z) : Prop :=
  let '(c1, l1, m1, o1) := k1 in
  let '(c2, l2, m2, o2) := k2 in
  (c2 < c1)%Q \/
  ((c1 == c2)%Q /\
   ((l2 < l1)%Q \/
    ((l1 == l2)%Q /\ (m2 < m1 \/ (m1 = m2 /\ o2 <= o1))))).

(** ** The clusterer in the words of the specification *)

(** A moment is retained unless its fingerprint is empty, shorter than the
    minimum length, or, when cause codes are required, without one. *)
Definition retained_moment (d : Danger.t) : Prop :=
  fingerprint_of d <> [] /\
  (MIN_PATTERN_LEN <= length (fingerprint_of d))%nat /\
  (REQUIRE_CAUSE_CODE = true ->
   exists code, code ∈ fingerprint_of d /\ code ∈ CAUSE_CODES).

(** The representative of [c] scores at least the threshold against the
    fingerprint of [d]. *)
Definition scores (threshold : Q) (d : Danger.t) (c : Pattern.t) : Prop :=
  (threshold <= subseq_similarity (fingerprint_of d) (Pattern.sequence c))%Q.





(** ** Entry order of the codes of a window *)

(** [first_position x l p]: the first occurrence of [x] in [l] is at
    index [p]. *)
Definition first_position (x : string) (l : list string) (p : nat) : Prop :=
  l !! p = Some x /\ forall q, (q < p)%nat -> l !! q <> Some x.

Section EntryOrder.

Variable stopwords : gset string.
Variable window : list Row.t.








End EntryOrder.


(** The least timestamp of a frame. *)
Definition least_timestamp (rows : list Row.t) (m : Z) : Prop :=
  (exists r, r ∈ rows /\ Row.timestamp_sec r = m) /\
  forall r, r ∈ rows -> m <= Row.timestamp_sec r.



(** ** The mode filter of the enrichment pass *)

Definition valid_mode (m : string) : Prop := m ∈ ["all"; "goals"; "critical"].

(** The moments a normalised mode keeps. *)
Definition kept_by_mode (m : string) (d : Danger.t) : Prop :=
  if decide (m = "goals") then Danger.resulted_in_goal d = Some true
  else if decide (m = "critical")
       then lower (default "" (Danger.severity d)) = "critical"
       else True.

#[global] Instance kept_by_mode_dec (m : string) (d : Danger.t) :
  Decision (kept_by_mode m d).
Proof. unfold kept_by_mode. repeat case_decide; apply _. Defined.

(** [dd] is the moment [d] of the match [match_name] after enrichment. *)
Definition enriched_from (match_name : string) (d dd : Danger.t) : Prop :=
  Danger.match_name dd = Some match_name /\
  Danger.peak_time dd = Danger.peak_time d /\
  Danger.peak_score dd = Danger.peak_score d /\
  Danger.severity dd = Danger.severity d /\
  Danger.resulted_in_goal dd = Danger.resulted_in_goal d /\
  Danger.nexus_timestamp dd = Danger.nexus_timestamp d /\
  is_Some (Danger.fingerprint_seq dd).


(** * Worked inputs *)

Module Examples.

(** A danger moment of the match [m] with the fingerprint [fp]. *)
Definition moment (m : string) (goal : bool) (fp : list string) : Danger.t :=
  {| Danger.match_name := Some m;
     Danger.peak_time := Some 100;
     Danger.peak_score := None;
     Danger.severity := None;
     Danger.resulted_in_goal := Some goal;
     Danger.nexus_timestamp := None;
     Danger.fingerprint_seq := Some fp;
     Danger.time_to_goal_sec := if goal then Some 30 else None |}.

Definition fpA : list string := ["PROGRESSION"; "HIGH PRESS"].
Definition fpB : list string := ["CREATING CHANCES"; "COUNTER"].
Definition fpC : list string := ["BLOCK"; "CLEARANCE"].

(** Two patterns over three matches, found in the order [fpB], [fpA]. *)
Definition focus2 : list Danger.t :=
  [ moment "m1" true fpB; moment "m1" true fpA; moment "m2" true fpB;
    moment "m2" true fpA; moment "m3" true fpA ].

Definition base2 : list Danger.t :=
  focus2 ++ [ moment "m3" false fpB; moment "m4" false fpC;
              moment "m4" false fpC; moment "m4" false fpC;
              moment "m4" false fpC ].





(** A timeline of five seconds. *)
Definition timeline : DataFrame.t :=
  {| DataFrame.columns := ["timestamp_sec"; "risk_score"; "active_events"];
     DataFrame.rows :=
       [ Row.mk 96 (AEList [IStr "BUILD UP"]);
         Row.mk 97 (AEList [IStr "BUILD UP"; IStr "PROGRESSION"]);
         Row.mk 98 (AEList [IStr "PROGRESSION"; IStr "HIGH PRESS"]);
         Row.mk 99 (AEList [IStr "HIGH PRESS"; IStr "GOALS"]);
         Row.mk 100 (AEList [IStr "PROGRESSION"; IStr "COUNTER";
                             IStr "CREATING CHANCES"]) ] |}.

(** Four codes entering one after the other, two of them stopwords. *)
Definition timeline_a : DataFrame.t :=
  {| DataFrame.columns := ["timestamp_sec"; "active_events"];
     DataFrame.rows :=
       [ Row.mk 10 (AEList [IStr "PROGRESSION"]);
         Row.mk 11 (AEList [IStr "PROGRESSION"; IStr "ATTACKING TRANSITION"]);
         Row.mk 12 (AEList [IStr "ATTACKING TRANSITION"; IStr "GOALS"]);
         Row.mk 13 (AEList [IStr "GOALS"; IStr "SET PIECES"]) ] |}.

Definition weights : gmap string Q :=
  {[ "PROGRESSION" := 3%Q; "HIGH PRESS" := 2%Q; "COUNTER" := 1%Q;
     "CREATING CHANCES" := 5%Q ]}.

(** Collaborators for one match with two danger moments, the first of
    which resulted in a goal. *)
Definition events : EventsDF.t :=
  {| EventsDF.columns := ["code"; "Team"; "start_sec"];
     EventsDF.rows :=
       [ EventRow.mk "GOALS" "Opponent"
           (fun col => if String.eqb col "start_sec" then Some 130 else None) ] |}.

Definition load_events (match_name : string) : option EventsDF.t := Some events.

Definition compute_risk_score (events_df : option EventsDF.t)
  : option DataFrame.t := Some timeline.

Definition raw_moment (goal : bool) (severity : string) : Danger.t :=
  {| Danger.match_name := None;
     Danger.peak_time := Some 100;
     Danger.peak_score := Some 80%Q;
     Danger.severity := Some severity;
     Danger.resulted_in_goal := Some goal;
     Danger.nexus_timestamp := None;
     Danger.fingerprint_seq := None;
     Danger.time_to_goal_sec := None |}.

Definition detect_danger_moments (risk_df : option DataFrame.t)
    (events_df : option EventsDF.t) (params : DetectParams.t)
  : list Danger.t :=
  [ raw_moment true "Critical"; raw_moment false "elevated" ].

Definition detect_params : DetectParams.t :=
  {| DetectParams.peak_percentile := 70;
     DetectParams.threshold_floor := 40;
     DetectParams.min_distance := 35;
     DetectParams.prominence := 10;
     DetectParams.goal_lookback := 90;
     DetectParams.merge_within_sec := 60 |}.

End Examples.


(** * Further specification-level notions *)

(** The codes of the deduplicated sequence with their weights, heaviest
    first: the list [scored] of [_compress_sequence_keep_order] after its
    sort. *)
Definition scored_of (OPPONENT_WEIGHTS BARCA_WEIGHTS : gmap string Q)
    (seq : list string) : list (string * Q) :=
  stable_sort (fun x y => Qle_bool (snd y) (snd x))
    (map (fun c => (c, _code_weight OPPONENT_WEIGHTS BARCA_WEIGHTS c))
         (_dedupe_preserve_order seq)).

(** What holds of every cluster the clusterer builds from the focus set
    [focus]: its representative is the fingerprint of a retained moment,
    it has between one and five exemplars, all of them retained focus
    moments, its match names are those of retained focus moments and there
    is at least one, and its goal counter is not negative. *)
Definition cluster_inv (focus : list Danger.t) (c : Pattern.t) : Prop :=
  (exists d, d ∈ focus /\ retained_moment d /\
     Pattern.sequence c = fingerprint_of d) /\
  (1 <= length (Pattern.examples c) <= 5)%nat /\
  (forall ex, ex ∈ Pattern.examples c -> ex ∈ focus /\ retained_moment ex) /\
  (exists m, m ∈ Pattern.matches c) /\
  (forall m, m ∈ Pattern.matches c ->
     exists d, d ∈ focus /\ retained_moment d /\ match_name_of d = m) /\
  0 <= Pattern.goals_in_pattern c.

(** The focus moments the clusterer does not skip. *)
Definition retained_of (focus : list Danger.t) : list Danger.t :=
  List.filter (fun d => negb (skipped d)) focus.

(** The retained moments with the fingerprint [rep]. *)
Definition same_fingerprint (rep : list string) (d : Danger.t) : bool :=
  negb (skipped d) && bool_decide (fingerprint_of d = rep).


(** The cluster that gathers the retained moments of [focus] whose
    fingerprint is [rep]: their match names, the first five of them as
    exemplars and the number of them that led to a goal. *)
Definition group_of (focus : list Danger.t) (rep : list string) : Pattern.t :=
  let ms := List.filter (same_fingerprint rep) focus in
  {| Pattern.sequence := rep;
     Pattern.matches := list_to_set (map match_name_of ms);
     Pattern.examples := take 5 ms;
     Pattern.goals_in_pattern := count_if goal_of ms |}.


(** The keys of the dictionaries the formatter builds, and those among
    them whose default is the empty list. *)
Definition LLM_KEYS : list string :=
  ["sequence"; "frequency"; "example_matches"; "avg_time_to_goal";
   "confidence_score"; "confidence_tier"; "lift"; "occurrences";
   "goals_in_pattern"; "pattern_goal_rate"; "baseline_goal_rate";
   "p_goal_rate_gt_baseline"].

Definition LLM_LIST_KEYS : list string := ["sequence"; "example_matches"].

(** * Further worked inputs *)

Module MoreExamples.

(** An event log in which the only goal is tagged with the team name
    ["FC Barcelona"]. *)
Definition barcelona_goal : EventRow.t :=
  EventRow.mk "GOALS" "FC Barcelona"
    (fun col => if String.eqb col "start_sec" then Some 200 else None).

Definition events_barcelona : EventsDF.t :=
  {| EventsDF.columns := ["code"; "Team"; "start_sec"];
     EventsDF.rows := [barcelona_goal] |}.

(** A detector that reports, for every match, one moment that resulted in
    a goal at second 100 and two that did not at second 98. *)
Definition raw_at (peak_time : Z) (goal : bool) : Danger.t :=
  {| Danger.match_name := None;
     Danger.peak_time := Some peak_time;
     Danger.peak_score := Some 80%Q;
     Danger.severity := Some "high";
     Danger.resulted_in_goal := Some goal;
     Danger.nexus_timestamp := None;
     Danger.fingerprint_seq := None;
     Danger.time_to_goal_sec := None |}.

Definition detect_three (risk_df : option DataFrame.t)
    (events_df : option EventsDF.t) (params : DetectParams.t)
  : list Danger.t :=
  [ raw_at 100 true; raw_at 98 false; raw_at 98 false ].



(** Pattern dictionaries over the values [None] (0), the empty list (1)
    and two others. *)
Definition pattern_dict : gmap string nat :=
  {[ "sequence" := 7%nat; "lift" := 8%nat; "examples" := 9%nat ]}.

End MoreExamples.

(** Decides a closed decidable statement by evaluation. *)
Ltac decide_it := apply (bool_decide_unpack _); vm_compute; exact I.

(** * Part II: properties *)

(** ** Similarity engine *)

Section SimilarityFacts.

Implicit Types a b s l r : list string.

Lemma sublist_cons_same (x : string) r l :
  x :: r `sublist_of` x :: l <-> r `sublist_of` l.
Proof.
  split; [|apply sublist_skip].
  rewrite sublist_cons_r. intros [H | (r' & Heq & H)].
  - etrans; [|exact H]. by apply sublist_cons.
  - by simplify_eq.
Qed.

Lemma sublist_cons_other (x y : string) r l :
  x <> y -> x :: r `sublist_of` y :: l <-> x :: r `sublist_of` l.
Proof.
  intros Hne. split; [|apply sublist_cons].
  rewrite sublist_cons_r. intros [H | (r' & Heq & H)]; [done|].
  by simplify_eq.
Qed.

(** The scan over the shared iterator decides the subsequence relation. *)
Lemma all_any_sublist l s : all_any s l = true <-> s `sublist_of` l.
Proof.
  revert s. induction l as [|y l IH]; intros [|x r]; simpl.
  - split; [constructor | done].
  - rewrite sublist_nil_r. split; discriminate.
  - split; [intros _; apply sublist_nil_l | done].
  - destruct (String.eqb_spec x y) as [-> | Hne].
    + rewrite sublist_cons_same. apply IH.
    + rewrite sublist_cons_other by done. apply (IH (x :: r)).
Qed.

Lemma is_subsequence_sublist s l :
  _is_subsequence s l = true <-> s `sublist_of` l.
Proof.
  destruct s as [|x r].
  - simpl. split; [intros _; apply sublist_nil_l | done].
  - apply all_any_sublist.
Qed.


Lemma sublist_same_length s l :
  length s = length l -> s `sublist_of` l -> s = l.
Proof.
  intros Hlen Hsub. revert Hlen.
  induction Hsub as [|x s l Hsub IH|x s l Hsub IH]; simpl; intros Hlen.
  - done.
  - f_equal. apply IH. lia.
  - apply sublist_length in Hsub. lia.
Qed.

(** *** Arithmetic of the length ratio *)

Lemma ratio_0 (d : nat) : (ratio 0 d == 0)%Q.
Proof. unfold ratio. simpl. unfold Qdiv. apply Qmult_0_l. Qed.

Lemma ratio_Qmake (n d : nat) :
  (0 < d)%nat -> (ratio n d == Z.of_nat n # Pos.of_nat d)%Q.
Proof.
  intros Hd. unfold ratio. rewrite (Qmake_Qdiv (Z.of_nat n)).
  replace (Z.pos (Pos.of_nat d)) with (Z.of_nat d); [reflexivity|].
  destruct d; [lia|].
  by rewrite <- Pos.of_nat_succ, Zpos_P_of_succ_nat, Nat2Z.inj_succ.
Qed.

Lemma ratio_same (n : nat) : (0 < n)%nat -> (ratio n n == 1)%Q.
Proof.
  intros Hn. rewrite ratio_Qmake by done. unfold Qeq. simpl.
  destruct n; [lia|]. rewrite <- Pos.of_nat_succ, Zpos_P_of_succ_nat. lia.
Qed.

Lemma ratio_range (n d : nat) :
  (0 < d)%nat -> (n <= d)%nat -> (0 <= ratio n d <= 1)%Q.
Proof.
  intros Hd Hn. rewrite ratio_Qmake by done. unfold Qle. simpl.
  destruct d; [lia|]. rewrite <- Pos.of_nat_succ, Zpos_P_of_succ_nat. lia.
Qed.


(** *** The function in terms of the shorter and the longer sequence *)

Lemma longer_of_length a b :
  (length (shorter_of a b) <= length (longer_of a b))%nat.
Proof.
  unfold shorter_of, longer_of.
  destruct (Nat.leb_spec (length a) (length b)); lia.
Qed.

Lemma longer_of_pos a b :
  a <> [] -> b <> [] -> (0 < length (longer_of a b))%nat.
Proof.
  unfold longer_of. destruct a, b; try done.
  destruct (_ <=? _)%nat; simpl; lia.
Qed.

Lemma subseq_similarity_nonempty a b :
  a <> [] -> b <> [] ->
  subseq_similarity a b =
    ratio (if _is_subsequence (shorter_of a b) (longer_of a b)
           then length (shorter_of a b) else 0%nat)
          (length (longer_of a b)).
Proof.
  intros Ha Hb. unfold subseq_similarity, shorter_of, longer_of.
  destruct a as [|x a]; [done|]. destruct b as [|y b]; [done|].
  destruct (Nat.leb_spec (length (x :: a)) (length (y :: b))).
  - by rewrite Nat.max_r.
  - by rewrite Nat.max_l by lia.
Qed.

Lemma subseq_similarity_refl s : (subseq_similarity s s == 1)%Q.
Proof.
  destruct s as [|x s]; [reflexivity|].
  rewrite subseq_similarity_nonempty by done.
  unfold shorter_of, longer_of. rewrite Nat.leb_refl.
  rewrite (proj2 (is_subsequence_sublist _ _)) by done.
  apply ratio_same. simpl. lia.
Qed.



End SimilarityFacts.



(** C10.  [subseq_similarity] does not depend on the order of its two
    arguments; on equal length both orders test equality of the
    sequences. *)
Theorem subseq_similarity_sym (a b : list string) :
  subseq_similarity a b = subseq_similarity b a /\
  (length a = length b ->
     (_is_subsequence a b = true <-> a = b) /\
     (_is_subsequence b a = true <-> a = b)).
Proof.
  assert (Heq : forall s l : list string, length s = length l ->
                  _is_subsequence s l = true <-> s = l).
  { intros s l Hlen. rewrite is_subsequence_sublist. split.
    - by apply sublist_same_length.
    - by intros ->. }
  split.
  - destruct a as [|x a], b as [|y b]; try done.
    unfold subseq_similarity.
    rewrite (Nat.max_comm (length (y :: b))).
    destruct (Nat.leb_spec (length (x :: a)) (length (y :: b))) as [Hab|Hab];
      destruct (Nat.leb_spec (length (y :: b)) (length (x :: a))) as [Hba|Hba];
      try done; [|lia].
    assert (Hlen : length (x :: a) = length (y :: b)) by lia.
    destruct (_is_subsequence (x :: a) (y :: b)) eqn:H1;
      destruct (_is_subsequence (y :: b) (x :: a)) eqn:H2; try done.
    + by rewrite Hlen.
    + apply Heq in H1; [|done]. rewrite H1 in H2.
      rewrite (proj2 (is_subsequence_sublist _ _)) in H2; done.
    + apply Heq in H2; [|done]. rewrite H2 in H1.
      rewrite (proj2 (is_subsequence_sublist _ _)) in H1; done.
  - intros Hlen. split; [by apply Heq|].
    rewrite Heq by done. split; congruence.
Qed.

(** Symmetry on two distinct sequences of equal length. *)
Lemma subseq_similarity_sym_witness :
  subseq_similarity ["PROGRESSION"; "HIGH PRESS"] ["HIGH PRESS"; "PROGRESSION"]
  = subseq_similarity ["HIGH PRESS"; "PROGRESSION"] ["PROGRESSION"; "HIGH PRESS"].
Proof.
  exact (proj1 (subseq_similarity_sym ["PROGRESSION"; "HIGH PRESS"]
                                      ["HIGH PRESS"; "PROGRESSION"])).
Defined.

(** ** Facts about the built-ins *)

Section BuiltinFacts.

Lemma bind_inr {A B} (m : result A) (k : A -> result B) (b : B) :
  bind m k = inr b -> exists a, m = inr a /\ k a = inr b.
Proof. destruct m as [e|a]; simpl; [done | eauto]. Qed.

Lemma py_div_inr (x y z : Q) :
  py_div x y = inr z -> ~ (y == 0)%Q /\ z = (x / y)%Q.
Proof.
  unfold py_div. destruct (Qeq_bool y 0) eqn:Hy; [done|].
  intros [= <-]. split; [|done]. by apply Qeq_bool_neq.
Qed.

Lemma py_div_nonzero (x y : Q) : ~ (y == 0)%Q -> py_div x y = inr (x / y)%Q.
Proof.
  intros Hy. unfold py_div. destruct (Qeq_bool y 0) eqn:E; [|done].
  by apply Qeq_bool_iff in E.
Qed.

Lemma Qlt_bool_iff (x y : Q) : Qlt_bool x y = true <-> (x < y)%Q.
Proof.
  unfold Qlt_bool. rewrite negb_true_iff.
  destruct (Qle_bool y x) eqn:E.
  - apply Qle_bool_iff in E. split; [done | intros H; lra].
  - split; [intros _ | done]. apply Qnot_le_lt. intros H.
    apply Qle_bool_iff in H. congruence.
Qed.

Lemma Qlt_bool_false (x y : Q) : Qlt_bool x y = false <-> (y <= x)%Q.
Proof.
  unfold Qlt_bool. rewrite negb_false_iff. apply Qle_bool_iff.
Qed.



(** *** Rounding *)

Lemma round_half_even_bounds (y : Q) :
  Qfloor y <= round_half_even y <= Qfloor y + 1.
Proof.
  unfold round_half_even.
  destruct (Qcompare _ _); [destruct (Z.even _)| |]; lia.
Qed.

Lemma round_half_even_mono (x y : Q) :
  (x <= y)%Q -> round_half_even x <= round_half_even y.
Proof.
  intros Hxy. pose proof (Qfloor_resp_le _ _ Hxy) as Hf.
  destruct (decide (Qfloor x = Qfloor y)) as [Heq | Hne].
  - unfold round_half_even. rewrite <- Heq.
    destruct (Qcompare_spec (x - inject_Z (Qfloor x)) (1 # 2));
      destruct (Qcompare_spec (y - inject_Z (Qfloor x)) (1 # 2));
      try destruct (Z.even (Qfloor x)); try lia; lra.
  - pose proof (round_half_even_bounds x). pose proof (round_half_even_bounds y).
    lia.
Qed.

Lemma round_half_even_Z (z : Z) : round_half_even (inject_Z z) = z.
Proof.
  unfold round_half_even. rewrite Qfloor_Z.
  destruct (Qcompare_spec (inject_Z z - inject_Z z) (1 # 2)) as [H|H|H];
    [lra | done | lra].
Qed.

Lemma pow10_pos (n : nat) : 0 < 10 ^ Z.of_nat n.
Proof. apply Z.pow_pos_nonneg; lia. Qed.

Lemma inject_pow10_pos (n : nat) : (0 < inject_Z (10 ^ Z.of_nat n))%Q.
Proof.
  pose proof (pow10_pos n). unfold Qlt. simpl. lia.
Qed.

Lemma py_round_mono (x y : Q) (n : nat) :
  (x <= y)%Q -> (py_round x n <= py_round y n)%Q.
Proof.
  intros Hxy. unfold py_round. pose proof (inject_pow10_pos n) as Hp.
  apply Qmult_le_compat_r.
  - rewrite <- Zle_Qle. apply round_half_even_mono.
    by apply Qmult_le_compat_r; [|apply Qlt_le_weak].
  - apply Qlt_le_weak, Qinv_lt_0_compat, Hp.
Qed.

Lemma py_round_Z (z : Z) (n : nat) : (py_round (inject_Z z) n == inject_Z z)%Q.
Proof.
  unfold py_round. pose proof (inject_pow10_pos n) as Hp.
  rewrite <- inject_Z_mult, round_half_even_Z, inject_Z_mult.
  field. lra.
Qed.

Lemma py_round_range (lo hi : Z) (x : Q) (n : nat) :
  (inject_Z lo <= x <= inject_Z hi)%Q ->
  (inject_Z lo <= py_round x n <= inject_Z hi)%Q.
Proof.
  intros [Hlo Hhi]. split.
  - rewrite <- (py_round_Z lo n). by apply py_round_mono.
  - rewrite <- (py_round_Z hi n). by apply py_round_mono.
Qed.

(** *** Sorting *)

Context {A : Type} (before : A -> A -> bool).

Lemma StronglySorted_weaken (R1 R2 : A -> A -> Prop) (l : list A) :
  (forall x y, R1 x y -> R2 x y) ->
  StronglySorted R1 l -> StronglySorted R2 l.
Proof.
  intros HR. induction 1 as [|x l Hl IH Hx]; constructor; [done|].
  eapply Forall_impl; [exact Hx | auto].
Qed.

Lemma sort_insert_Permutation (x : A) (l : list A) :
  sort_insert before x l ≡ₚ x :: l.
Proof.
  induction l as [|y l IH]; simpl; [done|].
  destruct (before x y); [done|]. rewrite IH. apply Permutation_swap.
Qed.

Lemma stable_sort_Permutation (l : list A) : stable_sort before l ≡ₚ l.
Proof.
  induction l as [|x l IH]; simpl; [done|].
  rewrite sort_insert_Permutation. by f_equiv.
Qed.

Lemma stable_sort_elem_of (x : A) (l : list A) :
  x ∈ stable_sort before l <-> x ∈ l.
Proof. by rewrite stable_sort_Permutation. Qed.

Hypothesis before_total : forall x y, before x y = true \/ before y x = true.
Hypothesis before_trans :
  forall x y z, before x y = true -> before y z = true -> before x z = true.

Lemma sort_insert_sorted (x : A) (l : list A) :
  StronglySorted (fun a b => before a b = true) l ->
  StronglySorted (fun a b => before a b = true) (sort_insert before x l).
Proof.
  induction 1 as [|y l Hl IH Hy]; simpl.
  - repeat constructor.
  - destruct (before x y) eqn:Hxy.
    + constructor; [by constructor|]. constructor; [done|].
      eapply Forall_impl; [exact Hy|]. intros z Hz. by eapply before_trans.
    + constructor; [done|].
      rewrite sort_insert_Permutation. constructor; [|done].
      destruct (before_total x y); congruence.
Qed.

Lemma stable_sort_sorted (l : list A) :
  StronglySorted (fun a b => before a b = true) (stable_sort before l).
Proof.
  induction l as [|x l IH]; simpl; [constructor|].
  by apply sort_insert_sorted.
Qed.

End BuiltinFacts.

(** ** The reference library *)

Section RefLibFacts.







End RefLibFacts.
(** ** Fingerprint builder *)

Section OrderFacts.

Implicit Types l k : list string.
Implicit Types x y : string.

Lemma first_position_cons_same x l : first_position x (x :: l) 0.
Proof. split; [done|]. intros q Hq. lia. Qed.

Lemma first_position_cons_other x a l p :
  x <> a -> first_position x l p -> first_position x (a :: l) (S p).
Proof.
  intros Hne [Hp Hfirst]. split; [done|].
  intros [|q] Hq; simpl; [congruence|]. apply Hfirst. lia.
Qed.

Lemma first_position_exists x l : x ∈ l -> exists p, first_position x l p.
Proof.
  induction l as [|a l IH]; intros Hin; [by apply elem_of_nil in Hin|].
  destruct (decide (x = a)) as [-> | Hne].
  - exists 0%nat. apply first_position_cons_same.
  - apply elem_of_cons in Hin as [? | Hin]; [done|].
    destruct (IH Hin) as [p Hp]. exists (S p).
    by apply first_position_cons_other.
Qed.

Lemma first_position_elem_of x l p : first_position x l p -> x ∈ l.
Proof. intros [Hp _]. by eapply list_elem_of_lookup_2. Qed.


(** *** Deduplication *)

Lemma dedupe_from_elem_of seen l x :
  x ∈ dedupe_from seen l <-> x ∈ l /\ x ∉ seen.
Proof.
  revert seen. induction l as [|a l IH]; intros seen; simpl.
  - split; [by intros ?%elem_of_nil | by intros [?%elem_of_nil _]].
  - destruct (decide (a ∈ seen)) as [Ha | Ha].
    + rewrite IH, elem_of_cons. split; [intros [? ?]; auto|].
      intros [[-> | ?] ?]; done.
    + rewrite !elem_of_cons, IH, not_elem_of_union, not_elem_of_singleton. split.
      * intros [-> | (? & ? & ?)]; auto.
      * intros [[-> | ?] ?]; [auto|].
        destruct (decide (x = a)) as [-> | ?]; auto.
Qed.

Lemma dedupe_from_NoDup seen l : NoDup (dedupe_from seen l).
Proof.
  revert seen. induction l as [|a l IH]; intros seen; simpl; [constructor|].
  destruct (decide (a ∈ seen)); [apply IH|].
  constructor; [|apply IH]. rewrite dedupe_from_elem_of. intros [_ []].
  by apply elem_of_union_l, elem_of_singleton.
Qed.

Lemma dedupe_from_sublist seen l : dedupe_from seen l `sublist_of` l.
Proof.
  revert seen. induction l as [|a l IH]; intros seen; simpl; [done|].
  destruct (decide (a ∈ seen)); [by apply sublist_cons | by apply sublist_skip].
Qed.

(** The deduplicated sequence lists the items by first occurrence. *)
Lemma dedupe_from_order seen l m n x y :
  (m < n)%nat ->
  dedupe_from seen l !! m = Some x -> dedupe_from seen l !! n = Some y ->
  exists p q, first_position x l p /\ first_position y l q /\ (p < q)%nat.
Proof.
  revert seen m n. induction l as [|a l IH]; intros seen m n Hmn; simpl; [done|].
  destruct (decide (a ∈ seen)) as [Ha | Ha].
  - intros Hm Hn.
    assert (x <> a /\ y <> a) as [??].
    { split; intros ->.
      - apply list_elem_of_lookup_2, dedupe_from_elem_of in Hm. tauto.
      - apply list_elem_of_lookup_2, dedupe_from_elem_of in Hn. tauto. }
    destruct (IH seen m n Hmn Hm Hn) as (p & q & ? & ? & ?).
    exists (S p), (S q). split; [by apply first_position_cons_other|].
    split; [by apply first_position_cons_other | lia].
  - destruct n as [|n]; [lia|]. simpl. intros Hm Hn.
    assert (y ∈ l /\ y <> a) as [Hy ?].
    { apply list_elem_of_lookup_2, dedupe_from_elem_of in Hn.
      destruct Hn as [? [?%not_elem_of_singleton _]%not_elem_of_union].
      by split. }
    destruct m as [|m]; simpl in Hm.
    + injection Hm as ->. apply first_position_exists in Hy as [q Hq].
      exists 0%nat, (S q). split; [apply first_position_cons_same|].
      split; [by apply first_position_cons_other | lia].
    + assert (x <> a).
      { apply list_elem_of_lookup_2, dedupe_from_elem_of in Hm.
        by destruct Hm as [_ [?%not_elem_of_singleton _]%not_elem_of_union]. }
      destruct (IH _ m n ltac:(lia) Hm Hn) as (p & q & ? & ? & ?).
      exists (S p), (S q). split; [by apply first_position_cons_other|].
      split; [by apply first_position_cons_other | lia].
Qed.

End OrderFacts.

Section WalkFacts.

Variable stopwords : gset string.

Implicit Types l k : list string.
Implicit Types x y c : string.

Lemma elem_of_cur_set_of codes c :
  c ∈ cur_set_of stopwords codes <-> c ∈ codes /\ c <> "" /\ c ∉ stopwords.
Proof.
  unfold cur_set_of. rewrite elem_of_list_to_set, list_elem_of_filter. tauto.
Qed.

Lemma elem_of_entered_of cur prev codes c :
  c ∈ entered_of cur prev codes <-> c ∈ codes /\ c ∈ cur /\ c ∉ prev.
Proof. unfold entered_of. rewrite list_elem_of_filter. tauto. Qed.

(** No stopword is ever recorded by the walk. *)
Lemma walk_not_stopword prev window c :
  c ∈ walk stopwords prev window -> c ∉ stopwords.
Proof.
  revert prev. induction window as [|row window IH]; intros prev; simpl.
  - by intros ?%elem_of_nil.
  - rewrite elem_of_app, elem_of_entered_of, elem_of_cur_set_of.
    intros [(_ & (_ & _ & ?) & _) | ?]; [done | by eapply IH].
Qed.

(** *** First positions in appended and filtered lists *)



Lemma filter_first_position (P : string -> Prop) `{!forall c, Decision (P c)}
    x l o :
  first_position x (filter P l) o -> exists p, first_position x l p.
Proof.
  intros Hin%first_position_elem_of. apply first_position_exists.
  by apply list_elem_of_filter in Hin as [_ ?].
Qed.


(** *** First positions in a concatenation of blocks *)




End WalkFacts.

Section WindowFacts.

Variable stopwords : gset string.
Variable window : list Row.t.

Implicit Types x y c : string.







End WindowFacts.

Section CompressFacts.

Variables OPPONENT_WEIGHTS BARCA_WEIGHTS : gmap string Q.

Lemma py_slice_to_length {A} (l : list A) (k : Z) :
  0 <= k -> Z.of_nat (length (py_slice_to l k)) <= k.
Proof.
  intros Hk. unfold py_slice_to.
  destruct (Z.ltb_spec k 0); [lia|]. rewrite length_take. lia.
Qed.

Lemma compress_sublist (seq : list string) (top_k : Z) :
  _compress_sequence_keep_order OPPONENT_WEIGHTS BARCA_WEIGHTS seq top_k
    `sublist_of` _dedupe_preserve_order seq.
Proof.
  unfold _compress_sequence_keep_order. destruct seq as [|c seq]; [done|].
  apply sublist_filter.
Qed.

Lemma compress_NoDup (seq : list string) (top_k : Z) :
  NoDup (_compress_sequence_keep_order OPPONENT_WEIGHTS BARCA_WEIGHTS seq top_k).
Proof.
  unfold _compress_sequence_keep_order. destruct seq as [|c seq]; [constructor|].
  apply NoDup_filter, dedupe_from_NoDup.
Qed.

Lemma compress_length (seq : list string) (top_k : Z) :
  0 <= top_k ->
  Z.of_nat (length (_compress_sequence_keep_order
                      OPPONENT_WEIGHTS BARCA_WEIGHTS seq top_k)) <= top_k.
Proof.
  intros Hk. pose proof (compress_NoDup seq top_k) as Hnd. revert Hnd.
  unfold _compress_sequence_keep_order. destruct seq as [|c seq]; [simpl; lia|].
  set (scored := stable_sort _ _). intros Hnd.
  etrans; [|apply (py_slice_to_length scored top_k Hk)].
  rewrite <- (length_map fst). apply inj_le, submseteq_length.
  apply NoDup_submseteq; [done|].
  intros x [Hx _]%list_elem_of_filter. by apply elem_of_list_to_set in Hx.
Qed.

End CompressFacts.

Section TimelineFacts.




Lemma least_timestamp_unique (rows : list Row.t) (m1 m2 : Z) :
  least_timestamp rows m1 -> least_timestamp rows m2 -> m1 = m2.
Proof.
  intros [(r1 & Hr1 & <-) Hle1] [(r2 & Hr2 & <-) Hle2].
  specialize (Hle1 _ Hr2). specialize (Hle2 _ Hr1). lia.
Qed.



End TimelineFacts.


(** ** The scorer, cluster by cluster *)

Section ScorerFacts.

Variable lib : StatLib.t.
Variable params : Params.t.

Lemma baseline_goal_rate_total (base : list Danger.t) :
  baseline_goal_rate base = inr (rate_of_base base).
Proof.
  unfold baseline_goal_rate, rate_of_base.
  destruct (Z.eqb_spec (base_occ base) 0) as [|Hne]; [done|].
  apply py_div_nonzero. unfold Qeq. simpl. lia.
Qed.

Lemma goals_le_occurrences (base : list Danger.t) (rep : list string) :
  0 <= goals_of params base rep <= occurrences_of params base rep.
Proof.
  unfold goals_of, occurrences_of, count_if. split; [lia|].
  apply inj_le, filter_length_le.
Qed.

(** What a cluster that survives the three filters contributes. *)
Lemma score_cluster_Some (base : list Danger.t) (c : Pattern.t)
    (r : PatternResult.t) :
  score_cluster lib params base (rate_of_base base) c = inr (Some r) ->
  let rep := Pattern.sequence c in
  let match_count := Z.of_nat (size (Pattern.matches c)) in
  Params.min_match_frequency params <= match_count /\
  Params.min_occurrences params <= occurrences_of params base rep /\
  (Params.min_lift params <= lift_of params base rep)%Q /\
  -1 < Params.support_target_occ params /\
  ~ (StatLib.log1p lib (inject_Z (Params.support_target_occ params)) == 0)%Q /\
  Params.support_target_matches params <> 0 /\
  PatternResult.sequence r = rep /\
  PatternResult.match_count r = match_count /\
  PatternResult.frequency r = (match_count, total_matches base) /\
  PatternResult.occurrences r = occurrences_of params base rep /\
  PatternResult.goals_in_pattern r = goals_of params base rep /\
  PatternResult.pattern_goal_rate r = py_round (goal_rate_of params base rep) 4 /\
  PatternResult.baseline_goal_rate r = py_round (rate_of_base base) 4 /\
  PatternResult.lift r = py_round (lift_of params base rep) 3 /\
  PatternResult.posterior_mean r = py_round (mean_of params base rep) 4 /\
  PatternResult.ci_level r = Params.ci_level params /\
  PatternResult.ci_low r = py_round (quantile_low_of lib params base rep) 4 /\
  PatternResult.ci_high r = py_round (quantile_high_of lib params base rep) 4 /\
  PatternResult.p_goal_rate_gt_baseline r
    = py_round (p_gt_of lib params base rep) 4 /\
  PatternResult.confidence_score r
    = py_round (score_of lib params base rep match_count) 4 /\
  PatternResult.confidence_tier r
    = tier_of (score_of lib params base rep match_count).
Proof.
  unfold score_cluster. intros H. cbn zeta.
  destruct (Z.ltb_spec (Z.of_nat (size (Pattern.matches c)))
                       (Params.min_match_frequency params)) as [|Hmc]; [done|].
  fold (occurrences_of params base (Pattern.sequence c)) in H.
  fold (goals_of params base (Pattern.sequence c)) in H.
  destruct (Z.ltb_spec (occurrences_of params base (Pattern.sequence c))
                       (Params.min_occurrences params)) as [|Hocc]; [done|].
  apply bind_inr in H as (pgr & Hpgr & H).
  assert (pgr = goal_rate_of params base (Pattern.sequence c)) as ->.
  { unfold goal_rate_of. destruct (_ =? 0); [by injection Hpgr|].
    by apply py_div_inr in Hpgr as [_ ->]. }
  apply bind_inr in H as (lift & Hlift & H).
  assert (lift = lift_of params base (Pattern.sequence c)) as ->.
  { unfold lift_of. destruct (Qlt_bool 0 _); [|by injection Hlift].
    by apply py_div_inr in Hlift as [_ ->]. }
  destruct (Qlt_bool _ (Params.min_lift params)) eqn:Hml; [done|].
  apply Qlt_bool_false in Hml.
  apply bind_inr in H as (avg & _ & H).
  apply bind_inr in H as (pm & Hpm & H).
  apply py_div_inr in Hpm as [_ ->].
  apply bind_inr in H as (log_occ & Hlo & H).
  apply bind_inr in H as (log_target & Hlt & H).
  apply bind_inr in H as (occ_ratio & Hor & H).
  apply bind_inr in H as (matches_ratio & Hmr & H).
  unfold py_log1p in Hlo, Hlt.
  destruct (Z.leb_spec (occurrences_of params base (Pattern.sequence c)) (-1));
    [done|]. injection Hlo as <-.
  destruct (Z.leb_spec (Params.support_target_occ params) (-1)) as [|Hto];
    [done|]. injection Hlt as <-.
  apply py_div_inr in Hor as [Hnz ->].
  apply py_div_inr in Hmr as [Hmz ->].
  injection H as <-. simpl.
  repeat split; try done; try lia.
  intros Heq. apply Hmz. by rewrite Heq.
Qed.

Lemma score_clusters_elem_of (base : list Danger.t) (bgr : Q)
    (clusters : list Pattern.t) (out : list PatternResult.t)
    (r : PatternResult.t) :
  score_clusters lib params base bgr clusters = inr out ->
  r ∈ out ->
  exists c, c ∈ clusters /\ score_cluster lib params base bgr c = inr (Some r).
Proof.
  revert out. induction clusters as [|c rest IH]; simpl; intros out H Hin.
  - injection H as <-. by apply elem_of_nil in Hin.
  - apply bind_inr in H as (r' & Hr' & H).
    apply bind_inr in H as (out' & Hout' & H). injection H as <-.
    destruct r' as [p|].
    + apply elem_of_cons in Hin as [-> | Hin].
      * exists c. split; [left | done].
      * destruct (IH _ Hout' Hin) as (c' & ? & ?). exists c'. split; [by right | done].
    + destruct (IH _ Hout' Hin) as (c' & ? & ?). exists c'. split; [by right | done].
Qed.

(** Every returned record comes from a cluster of the focus set that
    passed the filters. *)
Lemma find_patterns_elem_of (all_dangers : list Danger.t)
    (baseline_dangers : option (list Danger.t))
    (out : list PatternResult.t) (r : PatternResult.t) :
  find_patterns lib params all_dangers baseline_dangers = inr out ->
  r ∈ out ->
  let base := default all_dangers baseline_dangers in
  exists c,
    c ∈ build_clusters (Params.min_subseq_similarity params) all_dangers /\
    score_cluster lib params base (rate_of_base base) c = inr (Some r).
Proof.
  intros H Hin base. unfold find_patterns in H. fold base in H.
  rewrite baseline_goal_rate_total in H. simpl in H.
  apply bind_inr in H as (scored & Hscored & H). injection H as <-.
  apply stable_sort_elem_of in Hin.
  by eapply score_clusters_elem_of.
Qed.

End ScorerFacts.

(** ** Pattern clusterer *)

Section ClustererFacts.

Variable threshold : Q.

Lemma has_cause_code_spec (seq : list string) :
  _has_cause_code seq = true <-> exists code, code ∈ seq /\ code ∈ CAUSE_CODES.
Proof.
  unfold _has_cause_code. rewrite existsb_exists. split.
  - intros (c & Hin & Hc). exists c. split; [by apply list_elem_of_In|].
    by apply bool_decide_eq_true in Hc.
  - intros (c & Hin & Hc). exists c. split; [by apply list_elem_of_In|].
    by apply bool_decide_eq_true.
Qed.

Lemma skipped_spec (d : Danger.t) : skipped d = false <-> retained_moment d.
Proof.
  unfold skipped, retained_moment.
  rewrite !orb_false_iff, Nat.ltb_ge. unfold REQUIRE_CAUSE_CODE.
  rewrite andb_true_l, negb_false_iff, has_cause_code_spec.
  split.
  - intros [[Hnil Hlen] Hc].
    split; [by destruct (fingerprint_of d)|]. by split.
  - intros (Hnil & Hlen & Hc).
    split; [split; [by destruct (fingerprint_of d) | done] | by apply Hc].
Qed.

Lemma similar_spec (d : Danger.t) (c : Pattern.t) :
  similar threshold (fingerprint_of d) (Pattern.sequence c) = true
  <-> scores threshold d c.
Proof. apply Qle_bool_iff. Qed.



(** The inner loop stops at the first cluster that scores. *)
Lemma place_first (d : Danger.t) (earlier later : list Pattern.t)
    (c : Pattern.t) :
  Forall (fun c0 => ~ scores threshold d c0) earlier ->
  scores threshold d c ->
  place threshold d (earlier ++ c :: later)
  = (earlier ++ attach d c :: later, true).
Proof.
  intros Hearlier Hc. induction Hearlier as [|c0 earlier Hc0 _ IH]; simpl.
  - by rewrite (proj2 (similar_spec d c) Hc).
  - destruct (similar _ _ (Pattern.sequence c0)) eqn:E.
    + by apply similar_spec in E.
    + by rewrite IH.
Qed.

Lemma place_none (d : Danger.t) (clusters : list Pattern.t) :
  Forall (fun c0 => ~ scores threshold d c0) clusters ->
  place threshold d clusters = (clusters, false).
Proof.
  induction 1 as [|c0 clusters Hc0 _ IH]; simpl; [done|].
  destruct (similar _ _ (Pattern.sequence c0)) eqn:E.
  - by apply similar_spec in E.
  - by rewrite IH.
Qed.

Lemma place_cases (d : Danger.t) (clusters : list Pattern.t) :
  (exists earlier c later,
      clusters = earlier ++ c :: later /\
      Forall (fun c0 => ~ scores threshold d c0) earlier /\
      scores threshold d c) \/
  Forall (fun c0 => ~ scores threshold d c0) clusters.
Proof.
  induction clusters as [|c0 clusters IH]; [by right|].
  destruct (similar threshold (fingerprint_of d) (Pattern.sequence c0)) eqn:E.
  - left. exists [], c0, clusters. split; [done|]. split; [constructor|].
    by apply similar_spec.
  - assert (~ scores threshold d c0).
    { intros H%similar_spec. congruence. }
    destruct IH as [(earlier & c & later & -> & Hearlier & Hc) | Hnone].
    + left. exists (c0 :: earlier), c, later. split; [done|].
      split; [by constructor | done].
    + right. by constructor.
Qed.



Lemma build_clusters_snoc (ds : list Danger.t) (d : Danger.t) :
  build_clusters threshold (ds ++ [d])
  = cluster_step threshold (build_clusters threshold ds) d.
Proof. unfold build_clusters. by rewrite fold_left_app. Qed.

End ClustererFacts.


(** ** Output ordering *)

Section OrderingFacts.

Implicit Types k : Q * Q * Z * Z.

Lemma key_ge_lex k1 k2 : key_ge k1 k2 = true <-> key_lex_ge k1 k2.
Proof.
  destruct k1 as [[[c1 l1] m1] o1], k2 as [[[c2 l2] m2] o2].
  unfold key_ge, key_lex_ge.
  destruct (Qcompare_spec c1 c2) as [Hc|Hc|Hc].
  - destruct (Qcompare_spec l1 l2) as [Hl|Hl|Hl].
    + destruct (Z.compare_spec m1 m2) as [Hm|Hm|Hm].
      * rewrite Z.leb_le. split; [intros; right; split; [done|]; right; split; [done|]; right; lia|].
        intros [? | [_ [? | [_ [? | [_ ?]]]]]]; [lra | lra | lia | done].
      * split; [done|].
        intros [? | [_ [? | [_ [? | [? ?]]]]]]; [lra | lra | lia | lia].
      * split; [intros _; right; split; [done|]; right; split; [done|]; left; lia | done].
    + split; [done|]. intros [? | [_ [? | [? _]]]]; lra.
    + split; [intros _; right; split; [done|]; by left | done].
  - split; [done|]. intros [? | [? _]]; lra.
  - split; [intros _; by left | done].
Qed.

Lemma key_lex_ge_total k1 k2 : key_lex_ge k1 k2 \/ key_lex_ge k2 k1.
Proof.
  destruct k1 as [[[c1 l1] m1] o1], k2 as [[[c2 l2] m2] o2].
  unfold key_lex_ge.
  destruct (Qcompare_spec c1 c2) as [Hc|Hc|Hc]; [|right; by left|left; by left].
  destruct (Qcompare_spec l1 l2) as [Hl|Hl|Hl];
    [|right; right; split; [by symmetry|]; by left
     |left; right; split; [done|]; by left].
  destruct (Z.compare_spec m1 m2) as [Hm|Hm|Hm].
  - destruct (Z.le_ge_cases o1 o2).
    + right. right. split; [by symmetry|]. right. split; [by symmetry|]. right. lia.
    + left. right. split; [done|]. right. split; [done|]. right. lia.
  - right. right. split; [by symmetry|]. right. split; [by symmetry|]. left. lia.
  - left. right. split; [done|]. right. split; [done|]. left. lia.
Qed.

Lemma key_lex_ge_trans k1 k2 k3 :
  key_lex_ge k1 k2 -> key_lex_ge k2 k3 -> key_lex_ge k1 k3.
Proof.
  destruct k1 as [[[c1 l1] m1] o1], k2 as [[[c2 l2] m2] o2],
           k3 as [[[c3 l3] m3] o3].
  unfold key_lex_ge.
  intros [H1 | [E1 H1]] [H2 | [E2 H2]];
    [left; lra | left; lra | left; lra |].
  right. split; [lra|].
  destruct H1 as [H1 | [F1 H1]], H2 as [H2 | [F2 H2]];
    [left; lra | left; lra | left; lra |].
  right. split; [lra|]. lia.
Qed.

End OrderingFacts.

(** C9.  The list returned by [find_patterns] is in descending
    lexicographic order of [(confidence_score, lift, match_count,
    occurrences)]: every record's key is at least the key of every record
    after it. *)
Theorem find_patterns_sorted (lib : StatLib.t) (params : Params.t)
    (all_dangers : list Danger.t) (baseline_dangers : option (list Danger.t))
    (out : list PatternResult.t) :
  find_patterns lib params all_dangers baseline_dangers = inr out ->
  StronglySorted (fun p q => key_lex_ge (sort_key p) (sort_key q)) out.
Proof.
  unfold find_patterns. intros H.
  apply bind_inr in H as (bgr & _ & H).
  apply bind_inr in H as (scored & _ & H). injection H as <-.
  apply (StronglySorted_weaken (fun p q => precedes p q = true)).
  - intros p q. apply key_ge_lex.
  - apply stable_sort_sorted.
    + intros p q. unfold precedes.
      destruct (key_lex_ge_total (sort_key p) (sort_key q)) as [H|H];
        [left | right]; by apply (proj2 (key_ge_lex _ _)).
    + intros p q r. unfold precedes. intros Hpq%key_ge_lex Hqr%key_ge_lex.
      apply (proj2 (key_ge_lex _ _)). by eapply key_lex_ge_trans.
Qed.

(** ** Statistical scorer *)

Section TierFacts.




End TierFacts.



(** ** Baseline rate and lift *)

Section DiscardFacts.

Variable lib : StatLib.t.
Variable params : Params.t.
Variable base : list Danger.t.

Lemma goal_rate_total (rep : list string) :
  (if occurrences_of params base rep =? 0 then ret 0%Q
   else py_div (inject_Z (goals_of params base rep))
               (inject_Z (occurrences_of params base rep)))
  = inr (goal_rate_of params base rep).
Proof.
  unfold goal_rate_of.
  destruct (Z.eqb_spec (occurrences_of params base rep) 0) as [|Hne]; [done|].
  apply py_div_nonzero. unfold Qeq. simpl. lia.
Qed.

Lemma lift_total (rep : list string) :
  (if Qlt_bool 0 (rate_of_base base)
   then py_div (goal_rate_of params base rep) (rate_of_base base)
   else ret 0%Q)
  = inr (lift_of params base rep).
Proof.
  unfold lift_of. destruct (Qlt_bool 0 (rate_of_base base)) eqn:E; [|done].
  apply Qlt_bool_iff in E. apply py_div_nonzero. lra.
Qed.




End DiscardFacts.

Lemma lift_of_empty_base (params : Params.t) (rep : list string) :
  lift_of params [] rep = 0%Q.
Proof. reflexivity. Qed.


(** ** Enrichment pass *)

Section OrchestratorFacts.

Variables OPPONENT_WEIGHTS BARCA_WEIGHTS : gmap string Q.
Variable load_events : string -> option EventsDF.t.
Variable compute_risk_score : option EventsDF.t -> option DataFrame.t.
Variable detect_danger_moments :
  option DataFrame.t -> option EventsDF.t -> DetectParams.t -> list Danger.t.

Lemma filter_by_mode_spec (m : string) (dangers : list Danger.t) :
  filter_by_mode m dangers = filter (kept_by_mode m) dangers.
Proof.
  unfold filter_by_mode.
  destruct (String.eqb_spec m "goals") as [-> | Hg].
  - apply list_filter_iff. intros d. unfold kept_by_mode. simpl.
    by destruct (Danger.resulted_in_goal d) as [[]|].
  - destruct (String.eqb_spec m "critical") as [-> | Hc].
    + apply list_filter_iff. intros d. by unfold kept_by_mode.
    + induction dangers as [|d dangers IH]; [done|].
      rewrite filter_cons, decide_True, <- IH; [done|].
      unfold kept_by_mode. by rewrite !decide_False by done.
Qed.

Lemma enrich_spec (match_name : string) (risk_df : option DataFrame.t)
    (times : list Z) (lookahead : Z) (d dd : Danger.t) :
  enrich OPPONENT_WEIGHTS BARCA_WEIGHTS match_name risk_df times lookahead d
    = inr dd ->
  enriched_from match_name d dd.
Proof.
  unfold enrich. destruct (Danger.peak_time d) as [pt|] eqn:Hpt; [|done].
  intros [= <-]. unfold enriched_from. simpl. by eauto 10.
Qed.



End OrchestratorFacts.

(** ** When the scorer returns *)

Section ReturnFacts.

Variable lib : StatLib.t.
Variable params : Params.t.

Hypothesis log1p_target :
  ~ (StatLib.log1p lib (inject_Z (Params.support_target_occ params)) == 0)%Q.
Hypothesis target_occ : -1 < Params.support_target_occ params.
Hypothesis target_matches : Params.support_target_matches params <> 0.

Lemma inject_Z_nonzero (z : Z) : z <> 0 -> ~ (inject_Z z == 0)%Q.
Proof. intros Hz. unfold Qeq. simpl. lia. Qed.

(** With support targets that make its two quotients defined, the scorer
    raises on no cluster. *)
Lemma score_cluster_returns (base : list Danger.t) (c : Pattern.t) :
  exists r, score_cluster lib params base (rate_of_base base) c = inr r.
Proof.
  unfold score_cluster.
  destruct (_ <? Params.min_match_frequency params); [by eexists|].
  fold (occurrences_of params base (Pattern.sequence c)).
  fold (goals_of params base (Pattern.sequence c)).
  destruct (_ <? Params.min_occurrences params); [by eexists|].
  rewrite goal_rate_total. cbn [bind ret]. rewrite lift_total. cbn [bind ret].
  destruct (Qlt_bool _ (Params.min_lift params)); [by eexists|].
  pose proof (goals_le_occurrences params base (Pattern.sequence c)) as Hgo.
  set (deltas := deltas_of _).
  assert (exists avg,
            (if is_nil deltas then ret None
             else do avg <- py_div (inject_Z (sum_Z deltas))
                                   (inject_Z (Z.of_nat (length deltas)));
                  ret (Some avg)) = inr avg) as [avg ->].
  { destruct deltas as [|dt deltas]; [by eexists|]. cbn [is_nil].
    rewrite py_div_nonzero by (apply inject_Z_nonzero; simpl; lia).
    by eexists. }
  cbn [bind ret].
  rewrite py_div_nonzero by (apply inject_Z_nonzero; lia). cbn [bind ret].
  unfold py_log1p.
  destruct (Z.leb_spec (occurrences_of params base (Pattern.sequence c)) (-1));
    [lia|]. cbn [bind ret].
  destruct (Z.leb_spec (Params.support_target_occ params) (-1)); [lia|].
  cbn [bind ret].
  rewrite (py_div_nonzero (StatLib.log1p lib _) (StatLib.log1p lib _))
    by exact log1p_target.
  cbn [bind ret].
  rewrite py_div_nonzero by (by apply inject_Z_nonzero). cbn [bind ret].
  by eexists.
Qed.

Lemma score_clusters_returns (base : list Danger.t) (clusters : list Pattern.t) :
  exists out,
    score_clusters lib params base (rate_of_base base) clusters = inr out.
Proof.
  induction clusters as [|c rest [out IH]]; simpl; [by eexists|].
  destruct (score_cluster_returns base c) as [r ->]. simpl.
  rewrite IH. simpl. by eexists.
Qed.

(** [find_patterns] then returns a list on every input. *)
Lemma find_patterns_returns (all_dangers : list Danger.t)
    (baseline_dangers : option (list Danger.t)) :
  exists out,
    find_patterns lib params all_dangers baseline_dangers = inr out.
Proof.
  unfold find_patterns. rewrite baseline_goal_rate_total. cbn [bind ret].
  destruct (score_clusters_returns (default all_dangers baseline_dangers)
              (build_clusters (Params.min_subseq_similarity params) all_dangers))
    as [out ->].
  by eexists.
Qed.

End ReturnFacts.

(** In particular with the default thresholds and the reference library. *)
Lemma find_patterns_default_returns (all_dangers : list Danger.t)
    (baseline_dangers : option (list Danger.t)) :
  exists out,
    find_patterns RefLib.lib Params.default all_dangers baseline_dangers
    = inr out.
Proof.
  apply find_patterns_returns; [|done|done].
  intros H. vm_compute in H. discriminate.
Qed.

(** ** The statements on the worked inputs *)

Import Examples.


(** Two patterns come back, the later-created one first. *)
Lemma find_patterns_sorted_witness :
  exists p q,
    find_patterns RefLib.lib Params.default focus2 (Some base2) = inr [p; q] /\
    PatternResult.sequence p = fpA /\ PatternResult.sequence q = fpB /\
    StronglySorted (fun p q => key_lex_ge (sort_key p) (sort_key q)) [p; q].
Proof.
  eexists _, _. split; [vm_compute; reflexivity|].
  split; [reflexivity|]. split; [reflexivity|].
  apply (find_patterns_sorted RefLib.lib Params.default focus2 (Some base2)).
  vm_compute. reflexivity.
Defined.










(** Scenario A of the specification: with the stopwords [GOALS] and
    [SET PIECES], equal weights and a top-K of 4, the fingerprint is
    [PROGRESSION, ATTACKING TRANSITION]. *)
Example fingerprint_scenario_a :
  build_fingerprint_sequence ∅ ∅ (Some timeline_a) 13 60
    (Some {[ "GOALS"; "SET PIECES" ]}) 4
  = ["PROGRESSION"; "ATTACKING TRANSITION"].
Proof. vm_compute. reflexivity. Qed.

(** The exact distribution function of [Beta(10, 1)] at the mean [10/11]
    is below 0.4: the 0.4 quantile lies above the mean, whatever the
    precision of the quantile routine. *)
Example beta_10_1_mean_below_quantile :
  (RefLib.beta_cdf (10 # 11) 10 1 < 4 # 10)%Q.
Proof. vm_compute. reflexivity. Qed.

(** * Part III: further properties of the program *)

(** ** Deduplication and compression of a code sequence *)

Section DedupeFacts.

Implicit Types l seq : list string.

Lemma dedupe_from_fixed seen l :
  NoDup l -> (forall x, x ∈ l -> x ∉ seen) -> dedupe_from seen l = l.
Proof.
revert seen. induction l as [|a l IH]; intros seen Hnd Hseen; simpl; [done|].
apply NoDup_cons in Hnd as [Ha Hnd].
rewrite decide_False by (apply Hseen; left). f_equal. apply IH; [done|].
intros x Hx. rewrite not_elem_of_union, not_elem_of_singleton. split.
- intros ->. done.
- apply Hseen. by right.
Qed.

End DedupeFacts.

(** X1.  [_dedupe_preserve_order] keeps exactly the items of its input,
    each once, in the order of their first occurrences. *)
Theorem dedupe_preserve_order_spec (seq : list string) :
  NoDup (_dedupe_preserve_order seq) /\
  (forall x, x ∈ _dedupe_preserve_order seq <-> x ∈ seq) /\
  _dedupe_preserve_order seq `sublist_of` seq /\
  (forall (m n : nat) (x y : string),
     (m < n)%nat ->
     _dedupe_preserve_order seq !! m = Some x ->
     _dedupe_preserve_order seq !! n = Some y ->
     exists p q, first_position x seq p /\ first_position y seq q /\ (p < q)%nat).
Proof.
unfold _dedupe_preserve_order.
split; [apply dedupe_from_NoDup|].
split.
{ intros x. rewrite dedupe_from_elem_of. split; [by intros [? _]|].
  intros ?. split; [done | apply not_elem_of_empty]. }
split; [apply dedupe_from_sublist|].
intros m n x y. apply dedupe_from_order.
Qed.

(** X2.  A sequence without duplicates is left as it is, and
    deduplicating twice is deduplicating once. *)
Theorem dedupe_preserve_order_fixed (seq : list string) :
  (NoDup seq -> _dedupe_preserve_order seq = seq) /\
  _dedupe_preserve_order (_dedupe_preserve_order seq)
  = _dedupe_preserve_order seq.
Proof.
assert (H : forall l : list string, NoDup l -> _dedupe_preserve_order l = l).
{ intros l Hl. apply dedupe_from_fixed; [done|].
  intros x _. apply not_elem_of_empty. }
split; [apply H|]. apply H, dedupe_from_NoDup.
Qed.

Section CompressSpec.

Variables OPPONENT_WEIGHTS BARCA_WEIGHTS : gmap string Q.


Lemma StronglySorted_lookup {A} (R : A -> A -> Prop) (l : list A)
    (i j : nat) (x y : A) :
  StronglySorted R l -> (i < j)%nat ->
  l !! i = Some x -> l !! j = Some y -> R x y.
Proof.
intros Hl. revert i j. induction Hl as [|a l Hl IH Ha]; intros i j Hij Hi Hj.
- done.
- destruct j as [|j]; [lia|]. simpl in Hj. destruct i as [|i]; simpl in Hi.
  + injection Hi as <-. rewrite Forall_forall in Ha.
    by eapply Ha, list_elem_of_lookup_2.
  + apply (IH i j); [lia | done | done].
Qed.

Lemma py_slice_to_length_eq {A B} (l : list A) (k : list B) (n : Z) :
  length l = length k -> length (py_slice_to l n) = length (py_slice_to k n).
Proof.
intros Hlen. unfold py_slice_to. destruct (n <? 0); rewrite !length_take; lia.
Qed.

Lemma filter_fixed {A} (P : A -> Prop) `{!forall x, Decision (P x)} (l : list A) :
  (forall x, x ∈ l -> P x) -> filter P l = l.
Proof.
induction l as [|a l IH]; intros HP; [done|].
rewrite filter_cons, decide_True by (apply HP; left).
f_equal. apply IH. intros x Hx. apply HP. by right.
Qed.

Lemma py_slice_to_all {A} (l : list A) (n : Z) :
  Z.of_nat (length l) <= n -> py_slice_to l n = l.
Proof.
intros Hn. unfold py_slice_to. destruct (Z.ltb_spec n 0); [lia|].
apply take_ge. lia.
Qed.

Lemma compress_unfold (seq : list string) (top_k : Z) :
  _compress_sequence_keep_order OPPONENT_WEIGHTS BARCA_WEIGHTS seq top_k
  = filter (fun c => c ∈ (list_to_set (map fst (py_slice_to (scored_of OPPONENT_WEIGHTS BARCA_WEIGHTS seq) top_k))
                          : gset string))
           (_dedupe_preserve_order seq).
Proof. by destruct seq. Qed.

Lemma scored_of_fst (seq : list string) :
  map fst (scored_of OPPONENT_WEIGHTS BARCA_WEIGHTS seq) ≡ₚ _dedupe_preserve_order seq.
Proof.
unfold scored_of. change (map fst ?l) with (fst <$> l).
rewrite stable_sort_Permutation.
change (map ?f ?l) with (f <$> l). rewrite <- list_fmap_compose.
by rewrite list_fmap_id.
Qed.

Lemma scored_of_snd (seq : list string) (c : string) (w : Q) :
  (c, w) ∈ scored_of OPPONENT_WEIGHTS BARCA_WEIGHTS seq -> w = _code_weight OPPONENT_WEIGHTS BARCA_WEIGHTS c.
Proof.
unfold scored_of. rewrite stable_sort_elem_of.
change (map ?f ?l) with (f <$> l).
intros (c' & [= -> ->] & _)%list_elem_of_fmap. done.
Qed.

Lemma scored_of_sorted (seq : list string) :
  StronglySorted (fun x y => (snd y <= snd x)%Q) (scored_of OPPONENT_WEIGHTS BARCA_WEIGHTS seq).
Proof.
apply (StronglySorted_weaken
         (fun x y => Qle_bool (snd y) (snd x) = true)).
- intros x y. apply Qle_bool_iff.
- apply stable_sort_sorted.
  + intros x y. destruct (Qlt_le_dec (snd x) (snd y)) as [H | H].
    * right. apply Qle_bool_iff. lra.
    * left. by apply Qle_bool_iff.
  + intros x y z Hxy%Qle_bool_iff Hyz%Qle_bool_iff. apply Qle_bool_iff. lra.
Qed.

Lemma scored_of_NoDup (seq : list string) : NoDup (map fst (scored_of OPPONENT_WEIGHTS BARCA_WEIGHTS seq)).
Proof. rewrite scored_of_fst. apply dedupe_from_NoDup. Qed.

Lemma elem_of_compress (seq : list string) (top_k : Z) (c : string) :
  c ∈ _compress_sequence_keep_order OPPONENT_WEIGHTS BARCA_WEIGHTS seq top_k <-> c ∈ map fst (py_slice_to (scored_of OPPONENT_WEIGHTS BARCA_WEIGHTS seq) top_k).
Proof.
rewrite compress_unfold, list_elem_of_filter, elem_of_list_to_set.
split; [by intros [? _]|]. intros Hc. split; [done|].
rewrite <- scored_of_fst. revert Hc. change (map fst ?l) with (fst <$> l).
intros (p & -> & Hp)%list_elem_of_fmap. apply list_elem_of_fmap_2.
unfold py_slice_to in Hp. destruct (top_k <? 0);
  apply elem_of_take in Hp as (i & Hi & _); by eapply list_elem_of_lookup_2.
Qed.

Lemma compress_Permutation (seq : list string) (top_k : Z) :
  _compress_sequence_keep_order OPPONENT_WEIGHTS BARCA_WEIGHTS seq top_k ≡ₚ map fst (py_slice_to (scored_of OPPONENT_WEIGHTS BARCA_WEIGHTS seq) top_k).
Proof.
apply NoDup_Permutation.
- apply compress_NoDup.
- change (map fst ?l) with (fst <$> l).
  assert (Hs : fst <$> py_slice_to (scored_of OPPONENT_WEIGHTS BARCA_WEIGHTS seq) top_k
               `sublist_of` fst <$> scored_of OPPONENT_WEIGHTS BARCA_WEIGHTS seq).
  { apply fmap_sublist. unfold py_slice_to.
    destruct (top_k <? 0); apply sublist_take. }
  eapply sublist_NoDup; [apply scored_of_NoDup | exact Hs].
- intros c. apply elem_of_compress.
Qed.

End CompressSpec.

(** X3.  [_compress_sequence_keep_order] keeps, in their order, as many
    distinct codes as the slice [[:top_k]] keeps of a list of that many
    items: [min(top_k, n)] of the [n] distinct codes for [top_k >= 0], and
    all but [-top_k] of them for a negative [top_k].  No dropped code is
    heavier than a kept one. *)
Theorem compress_sequence_keep_order_spec
    (OPPONENT_WEIGHTS BARCA_WEIGHTS : gmap string Q)
    (seq : list string) (top_k : Z) :
  let unique := _dedupe_preserve_order seq in
  let kept := _compress_sequence_keep_order OPPONENT_WEIGHTS BARCA_WEIGHTS
                seq top_k in
  kept `sublist_of` unique /\
  (0 <= top_k ->
     Z.of_nat (length kept) = Z.min top_k (Z.of_nat (length unique))) /\
  (top_k < 0 ->
     Z.of_nat (length kept) = Z.max 0 (Z.of_nat (length unique) + top_k)) /\
  (forall c c',
     c ∈ kept -> c' ∈ unique -> c' ∉ kept ->
     (_code_weight OPPONENT_WEIGHTS BARCA_WEIGHTS c'
      <= _code_weight OPPONENT_WEIGHTS BARCA_WEIGHTS c)%Q).
Proof.
intros unique kept. subst unique kept.
split; [apply compress_sublist|].
assert (Hlen : length (_compress_sequence_keep_order
                         OPPONENT_WEIGHTS BARCA_WEIGHTS seq top_k)
               = length (py_slice_to (_dedupe_preserve_order seq) top_k)).
{ rewrite compress_Permutation, length_map.
  apply py_slice_to_length_eq.
  rewrite <- (length_map fst). by rewrite scored_of_fst. }
split; [|split].
- intros Hk. rewrite Hlen. unfold py_slice_to.
  destruct (Z.ltb_spec top_k 0); [lia|]. rewrite length_take. lia.
- intros Hk. rewrite Hlen. unfold py_slice_to.
  destruct (Z.ltb_spec top_k 0); [|lia]. rewrite length_take. lia.
- intros c c' Hc Hc' Hnot.
  set (scored := scored_of OPPONENT_WEIGHTS BARCA_WEIGHTS seq).
  apply elem_of_compress in Hc. fold scored in Hc.
  assert (exists n, py_slice_to scored top_k = take n scored) as [n Hn].
  { unfold py_slice_to. destruct (top_k <? 0); by eexists. }
  rewrite Hn in Hc. change (map fst ?l) with (fst <$> l) in Hc.
  apply list_elem_of_fmap in Hc as ([c0 w] & -> & Hc).
  apply elem_of_take in Hc as (i & Hi & Hin). simpl.
  assert (c' ∈ map fst scored) as Hc'' by (unfold scored; by rewrite scored_of_fst).
  change (map fst ?l) with (fst <$> l) in Hc''.
  apply list_elem_of_fmap in Hc'' as ([c1 w'] & -> & Hc'').
  apply list_elem_of_lookup_1 in Hc'' as [j Hj]. simpl in *.
  assert (n <= j)%nat as Hnj.
  { destruct (decide (n <= j)%nat) as [|Hlt]; [done|]. exfalso. apply Hnot.
    apply elem_of_compress. fold scored. rewrite Hn.
    change (map fst ?l) with (fst <$> l).
    apply (list_elem_of_fmap_2 fst _ (c1, w')).
    apply elem_of_take. exists j. split; [done | lia]. }
  pose proof (scored_of_sorted OPPONENT_WEIGHTS BARCA_WEIGHTS seq) as Hsorted.
  pose proof (StronglySorted_lookup _ _ i j _ _ Hsorted ltac:(lia) Hi Hj) as Hw.
  simpl in Hw.
  rewrite <- (scored_of_snd OPPONENT_WEIGHTS BARCA_WEIGHTS seq c0 w)
    by (by eapply list_elem_of_lookup_2).
  rewrite <- (scored_of_snd OPPONENT_WEIGHTS BARCA_WEIGHTS seq c1 w')
    by (by eapply list_elem_of_lookup_2).
  done.
Qed.

(** X4.  When the distinct codes fit into [top_k], compression only
    deduplicates. *)
Theorem compress_sequence_keep_order_fits
    (OPPONENT_WEIGHTS BARCA_WEIGHTS : gmap string Q)
    (seq : list string) (top_k : Z) :
  Z.of_nat (length (_dedupe_preserve_order seq)) <= top_k ->
  _compress_sequence_keep_order OPPONENT_WEIGHTS BARCA_WEIGHTS seq top_k
  = _dedupe_preserve_order seq.
Proof.
intros Hfit. rewrite compress_unfold.
rewrite py_slice_to_all.
2:{ rewrite <- (length_map fst), scored_of_fst. done. }
apply filter_fixed. intros c Hc. apply elem_of_list_to_set.
by rewrite scored_of_fst.
Qed.

(** ** Reading the cells of the timeline *)

(** X5.  [_normalize_active_events_to_codes] returns a list of strings
    unchanged, a single string as a one-item list, and of a list led by a
    dictionary exactly the non-empty [code] entries of its dictionaries,
    in order; a missing value gives no code. *)
Theorem normalize_active_events_spec :
  (forall codes : list string,
     _normalize_active_events_to_codes (AEList (map IStr codes)) = codes) /\
  (forall s, _normalize_active_events_to_codes (AEStr s) = [s]) /\
  _normalize_active_events_to_codes AENone = [] /\
  _normalize_active_events_to_codes AENaN = [] /\
  (forall code repr items c,
     c ∈ _normalize_active_events_to_codes (AEList (IDict code repr :: items))
     <-> c <> "" /\ exists r, IDict (Some c) r ∈ IDict code repr :: items) /\
  (forall cell items,
     cell = AEList items ->
     (length (_normalize_active_events_to_codes cell) <= length items)%nat).
Proof.
split.
{ intros [|c codes]; [done|]. simpl. f_equal.
  induction codes as [|c' codes IH]; simpl; [done | by f_equal]. }
split; [done|]. split; [done|]. split; [done|]. split.
- intros code repr items c.
  change (_normalize_active_events_to_codes (AEList (IDict code repr :: items)))
    with (flat_map (fun e => match e with
                             | IDict (Some code) _ =>
                                 if String.eqb code "" then [] else [code]
                             | _ => []
                             end) (IDict code repr :: items)).
  generalize (IDict code repr :: items). clear. intros items.
  rewrite list_elem_of_In, in_flat_map. split.
  + intros (e & He & Hc). destruct e as [|[code|] r|]; try done.
    destruct (String.eqb_spec code ""); [done|].
    destruct Hc as [<- | []]. split; [done|]. exists r.
    by apply list_elem_of_In.
  + intros (Hne & r & Hr). exists (IDict (Some c) r).
    split; [by apply list_elem_of_In|].
    destruct (String.eqb_spec c ""); [done | by left].
- intros cell items ->. destruct items as [|[s|code repr|repr] items]; simpl;
    rewrite ?length_map; try lia.
  assert (H : forall l : list Item,
    (length (flat_map (fun e => match e with
                                | IDict (Some code) _ =>
                                    if String.eqb code "" then [] else [code]
                                | _ => []
                                end) l) <= length l)%nat).
  { induction l as [|e l IH]; simpl; [lia|]. rewrite length_app.
    destruct e as [|[c|] r|]; simpl; try lia.
    destruct (String.eqb c ""); simpl; lia. }
  specialize (H (IDict code repr :: items)). simpl in H. exact H.
Qed.

Section WalkSource.

Variable stopwords : gset string.

Lemma walk_elem_of (prev : gset string) (window : list Row.t) (c : string) :
  c ∈ walk stopwords prev window ->
  c <> "" /\
  exists row, row ∈ window /\
    c ∈ _normalize_active_events_to_codes (Row.active_events row).
Proof.
revert prev. induction window as [|row window IH]; intros prev; simpl.
- by intros ?%elem_of_nil.
- rewrite elem_of_app, elem_of_entered_of, elem_of_cur_set_of.
  intros [(Hc & (_ & Hne & _) & _) | Hin].
  + split; [done|]. exists row. split; [left | done].
  + destruct (IH _ Hin) as (Hne & row' & Hrow' & Hc).
    split; [done|]. exists row'. split; [by right | done].
Qed.

End WalkSource.

(** X6.  Every code of a fingerprint is a non-empty code that is active in
    some row of the timeline whose time lies between
    [peak_time - window_sec] and [peak_time]. *)
Theorem build_fingerprint_sequence_source
    (OPPONENT_WEIGHTS BARCA_WEIGHTS : gmap string Q)
    (risk_df : option DataFrame.t) (peak_time_sec window_sec : Z)
    (stopwords : option (gset string)) (top_k : Z) (c : string) :
  c ∈ build_fingerprint_sequence OPPONENT_WEIGHTS BARCA_WEIGHTS
        risk_df peak_time_sec window_sec stopwords top_k ->
  c <> "" /\
  exists df row,
    risk_df = Some df /\ row ∈ DataFrame.rows df /\
    peak_time_sec - window_sec <= Row.timestamp_sec row <= peak_time_sec /\
    c ∈ _normalize_active_events_to_codes (Row.active_events row).
Proof.
unfold build_fingerprint_sequence.
destruct risk_df as [df|]; [|by intros ?%elem_of_nil].
destruct (length (DataFrame.rows df) =? 0)%nat; [by intros ?%elem_of_nil|].
destruct (negb _ || negb _); [by intros ?%elem_of_nil|].
intros Hc.
eapply elem_of_sublist in Hc; [|apply compress_sublist].
eapply elem_of_sublist in Hc; [|apply dedupe_from_sublist].
eapply elem_of_sublist in Hc; [|apply dedupe_from_sublist].
apply walk_elem_of in Hc as (Hne & row & Hrow & Hc).
split; [done|]. exists df, row. split; [done|].
apply list_elem_of_filter in Hrow as [[Hlo Hhi] Hrow].
split; [done|]. split; [lia | done].
Qed.

(** ** Goal times *)

Section GoalTimes.



Lemma sorted_after (earlier later : list Z) (g g' : Z) :
  StronglySorted Z.le (earlier ++ g :: later) -> g' ∈ later -> g <= g'.
Proof.
induction earlier as [|e earlier IH]; simpl; intros Hs Hin.
- apply StronglySorted_inv in Hs as [_ Hall].
  rewrite Forall_forall in Hall. by apply Hall.
- apply StronglySorted_inv in Hs as [Hs _]. by apply IH.
Qed.

Lemma first_goal_from_Some (peak_time : Z) (times : list Z) (L d : Z) :
  first_goal_from peak_time times L = Some d ->
  exists earlier later,
    times = earlier ++ (peak_time + d) :: later /\
    Forall (fun g => g < peak_time) earlier /\ 0 <= d <= L.
Proof.
induction times as [|g times IH]; simpl; [done|].
destruct (Z.leb_spec peak_time g) as [Hg | Hg].
- destruct (Z.leb_spec (g - peak_time) L) as [HL | HL]; [|done].
  intros [= <-]. exists [], times. split; [simpl; f_equal; lia|].
  split; [constructor | lia].
- intros (earlier & later & -> & Hearlier & Hd)%IH.
  exists (g :: earlier), later. split; [done|]. split; [by constructor | done].
Qed.

Lemma first_goal_from_None (peak_time : Z) (times : list Z) (L : Z) :
  first_goal_from peak_time times L = None ->
  Forall (fun g => g < peak_time) times \/
  exists earlier g later,
    times = earlier ++ g :: later /\
    Forall (fun g => g < peak_time) earlier /\ peak_time + L < g.
Proof.
induction times as [|g times IH]; simpl; [by left|].
destruct (Z.leb_spec peak_time g) as [Hg | Hg].
- destruct (Z.leb_spec (g - peak_time) L) as [HL | HL]; [done|].
  intros _. right. exists [], g, times. split; [done|].
  split; [constructor | lia].
- intros [Hall | (earlier & g' & later & -> & Hearlier & Hg')]%IH.
  + left. by constructor.
  + right. exists (g :: earlier), g', later. split; [done|].
    split; [by constructor | done].
Qed.

End GoalTimes.

(** X7.  On goal times in ascending order [_next_goal_delta_sec] returns
    the distance to the earliest goal at or after the peak when that
    distance is at most [max_lookahead], and [None] exactly when no goal
    lies in [[peak_time, peak_time + max_lookahead]]. *)
Theorem next_goal_delta_sec_spec (peak_time : Z) (times : list Z)
    (max_lookahead : Z) :
  StronglySorted Z.le times ->
  (forall d,
     _next_goal_delta_sec peak_time times max_lookahead = Some d ->
     0 <= d <= max_lookahead /\ peak_time + d ∈ times /\
     forall g, g ∈ times -> peak_time <= g -> peak_time + d <= g) /\
  (_next_goal_delta_sec peak_time times max_lookahead = None <->
   forall g, g ∈ times -> ~ (peak_time <= g <= peak_time + max_lookahead)).
Proof.
intros Hsorted.
assert (Heq : _next_goal_delta_sec peak_time times max_lookahead
              = first_goal_from peak_time times max_lookahead)
  by (by destruct times).
rewrite Heq. clear Heq.
assert (Hsome : forall d,
  first_goal_from peak_time times max_lookahead = Some d ->
  0 <= d <= max_lookahead /\ peak_time + d ∈ times /\
  forall g, g ∈ times -> peak_time <= g -> peak_time + d <= g).
{ intros d (earlier & later & -> & Hearlier & Hd)%first_goal_from_Some.
  split; [done|]. split; [apply elem_of_app; right; left|].
  intros g Hg Hpeak. apply elem_of_app in Hg as [Hg | Hg].
  - rewrite Forall_forall in Hearlier. specialize (Hearlier _ Hg). lia.
  - apply elem_of_cons in Hg as [-> | Hg]; [lia|].
    by eapply sorted_after. }
split; [exact Hsome|]. split.
- intros [Hall | (earlier & g' & later & -> & Hearlier & Hg')]%first_goal_from_None
         g Hg [Hlo Hhi].
  + rewrite Forall_forall in Hall. specialize (Hall _ Hg). lia.
  + apply elem_of_app in Hg as [Hg | Hg].
    * rewrite Forall_forall in Hearlier. specialize (Hearlier _ Hg). lia.
    * apply elem_of_cons in Hg as [-> | Hg]; [lia|].
      pose proof (sorted_after _ _ _ _ Hsorted Hg). lia.
- intros Hnone.
  destruct (first_goal_from peak_time times max_lookahead) as [d|] eqn:E;
    [|done].
  destruct (Hsome d eq_refl) as (Hd & Hin & _).
  destruct (Hnone _ Hin). lia.
Qed.


Section GoalTimesFacts.


Lemma goal_times_elem_of (df : EventsDF.t) (start_col : string) (t : Z) :
  start_col_of (EventsDF.columns df) = Some start_col ->
  "code" ∈ EventsDF.columns df -> "Team" ∈ EventsDF.columns df ->
  t ∈ _get_opponent_goal_times (Some df) <->
  exists row, row ∈ EventsDF.rows df /\
    EventRow.code row = "GOALS" /\
    lower (EventRow.Team row) <> "barça" /\
    EventRow.cell row start_col = Some t.
Proof.
intros Hcol Hcode Hteam. unfold _get_opponent_goal_times.
destruct (EventsDF.rows df) as [|r0 rows] eqn:Hrows.
{ simpl. split; [by intros ?%elem_of_nil|].
  by intros (row & ?%elem_of_nil & _). }
simpl (length _ =? 0)%nat. cbv iota. rewrite Hcol.
unfold has_column. rewrite !bool_decide_eq_true_2 by done. simpl (negb _ || _).
cbv iota. rewrite stable_sort_elem_of, list_elem_of_omap.
split.
- intros (row & Hrow & Ht).
  apply list_elem_of_filter in Hrow as [Hteam' Hrow].
  apply list_elem_of_filter in Hrow as [Hcode' Hrow]. by exists row.
- intros (row & Hrow & Hcode' & Hteam' & Ht). exists row. split; [|done].
  apply list_elem_of_filter. split; [done|].
  by apply list_elem_of_filter.
Qed.


End GoalTimesFacts.


(** X9.  A [GOALS] row of the team ["FC Barcelona"] counts as an opponent
    goal: only a team whose lower-cased name is exactly ["barça"] is left
    out. *)
Theorem get_opponent_goal_times_team_name (df : EventsDF.t) (row : EventRow.t)
    (start_col : string) (t : Z) :
  start_col_of (EventsDF.columns df) = Some start_col ->
  "code" ∈ EventsDF.columns df -> "Team" ∈ EventsDF.columns df ->
  row ∈ EventsDF.rows df ->
  EventRow.code row = "GOALS" ->
  EventRow.Team row = "FC Barcelona" ->
  EventRow.cell row start_col = Some t ->
  t ∈ _get_opponent_goal_times (Some df).
Proof.
intros Hcol Hcode Hteam Hrow Hgoal Hname Ht.
apply (goal_times_elem_of df start_col t Hcol Hcode Hteam).
exists row. split; [done|]. split; [done|]. split; [|done].
rewrite Hname. vm_compute. discriminate.
Qed.

(** ** The enrichment pass, moment by moment *)

Section EnrichFacts.

Variables OPPONENT_WEIGHTS BARCA_WEIGHTS : gmap string Q.
Variable load_events : string -> option EventsDF.t.
Variable compute_risk_score : option EventsDF.t -> option DataFrame.t.
Variable detect_danger_moments :
  option DataFrame.t -> option EventsDF.t -> DetectParams.t -> list Danger.t.

Lemma fingerprint_basic (risk_df : option DataFrame.t)
    (peak_time_sec window_sec : Z) (stopwords : option (gset string))
    (top_k : Z) :
  0 <= top_k ->
  let fp := build_fingerprint_sequence OPPONENT_WEIGHTS BARCA_WEIGHTS
              risk_df peak_time_sec window_sec stopwords top_k in
  Z.of_nat (length fp) <= top_k /\ NoDup fp /\
  forall c, c ∈ fp -> (c ∉ default DEFAULT_STOPWORDS stopwords) /\ c <> "".
Proof.
intros Hk fp. subst fp. unfold build_fingerprint_sequence.
assert (Hnil : Z.of_nat (length (@nil string)) <= top_k /\ NoDup (@nil string) /\
               forall c, c ∈ @nil string ->
                 (c ∉ default DEFAULT_STOPWORDS stopwords) /\ c <> "").
{ split; [simpl; lia|]. split; [constructor|]. by intros c ?%elem_of_nil. }
destruct risk_df as [df|]; [|done].
destruct (length (DataFrame.rows df) =? 0)%nat; [done|].
destruct (negb _ || negb _); [done|]. clear Hnil.
split; [by apply compress_length|]. split; [apply compress_NoDup|].
intros c Hc.
eapply elem_of_sublist in Hc; [|apply compress_sublist].
eapply elem_of_sublist in Hc; [|apply dedupe_from_sublist].
eapply elem_of_sublist in Hc; [|apply dedupe_from_sublist].
split; [by eapply walk_not_stopword|].
by apply walk_elem_of in Hc as [? _].
Qed.

Lemma next_goal_delta_range (peak_time : Z) (times : list Z) (L d : Z) :
  _next_goal_delta_sec peak_time times L = Some d -> 0 <= d <= L.
Proof.
destruct times as [|g times]; [done|].
by intros (_ & _ & _ & _ & ?)%first_goal_from_Some.
Qed.

Lemma enrich_inr (match_name : string) (risk_df : option DataFrame.t)
    (times : list Z) (L : Z) (d dd : Danger.t) :
  enrich OPPONENT_WEIGHTS BARCA_WEIGHTS match_name risk_df times L d = inr dd ->
  exists peak_time fp,
    Danger.peak_time d = Some peak_time /\
    Danger.match_name dd = Some match_name /\
    Danger.fingerprint_seq dd = Some fp /\
    fp = build_fingerprint_sequence OPPONENT_WEIGHTS BARCA_WEIGHTS risk_df
           peak_time DEFAULT_FINGERPRINT_WINDOW_SEC (Some DEFAULT_STOPWORDS)
           DEFAULT_TOP_K_CODES /\
    Danger.time_to_goal_sec dd = _next_goal_delta_sec peak_time times L.
Proof.
unfold enrich. destruct (Danger.peak_time d) as [pt|]; [|done].
intros [= <-]. exists pt. by eexists.
Qed.



Lemma enrich_all_elem_of (match_name : string) (risk_df : option DataFrame.t)
    (times : list Z) (L : Z) (dangers out : list Danger.t) (dd : Danger.t) :
  enrich_all OPPONENT_WEIGHTS BARCA_WEIGHTS match_name risk_df times L dangers
    = inr out ->
  dd ∈ out ->
  exists d, d ∈ dangers /\
    enrich OPPONENT_WEIGHTS BARCA_WEIGHTS match_name risk_df times L d = inr dd.
Proof.
revert out. induction dangers as [|d dangers IH]; intros out; simpl.
- intros [= <-] ?%elem_of_nil. done.
- intros (dd0 & Hdd0 & H)%bind_inr. apply bind_inr in H as (out' & Hout' & H).
  injection H as <-. intros [-> | Hin]%elem_of_cons.
  + exists d. split; [left | done].
  + destruct (IH _ Hout' Hin) as (d' & ? & ?). exists d'. split; [by right | done].
Qed.



Lemma enrich_all_sublist (match_name : string) (risk_df : option DataFrame.t)
    (times : list Z) (L : Z) (some all out : list Danger.t) :
  some `sublist_of` all ->
  enrich_all OPPONENT_WEIGHTS BARCA_WEIGHTS match_name risk_df times L all
    = inr out ->
  exists out',
    enrich_all OPPONENT_WEIGHTS BARCA_WEIGHTS match_name risk_df times L some
      = inr out' /\
    out' `sublist_of` out.
Proof.
intros Hsub. revert out.
induction Hsub as [|d some all Hsub IH|d some all Hsub IH]; intros out; simpl.
- intros [= <-]. by exists [].
- intros (dd & Hdd & H)%bind_inr. apply bind_inr in H as (out0 & Hout0 & H).
  injection H as <-. destruct (IH _ Hout0) as (out' & -> & Hout').
  rewrite Hdd. simpl. exists (dd :: out'). split; [done | by apply sublist_skip].
- intros (dd & Hdd & H)%bind_inr. apply bind_inr in H as (out0 & Hout0 & H).
  injection H as <-. destruct (IH _ Hout0) as (out' & -> & Hout').
  exists out'. split; [done | by apply sublist_cons].
Qed.

Lemma filter_by_mode_sublist (m : string) (dangers : list Danger.t) :
  filter_by_mode m dangers `sublist_of` dangers.
Proof.
unfold filter_by_mode.
destruct (String.eqb m "goals"); [apply sublist_filter|].
destruct (String.eqb m "critical"); [apply sublist_filter | done].
Qed.

Lemma filter_by_mode_all (m : string) (dangers : list Danger.t) :
  m = "all" -> filter_by_mode m dangers = dangers.
Proof. by intros ->. Qed.

Lemma match_loop_elem_of (m : string) (params : DetectParams.t) (L : Z)
    (matches called : list string) (out : list Danger.t) (dd : Danger.t) :
  match_loop OPPONENT_WEIGHTS BARCA_WEIGHTS load_events compute_risk_score
             detect_danger_moments m params L matches = (called, inr out) ->
  dd ∈ out ->
  exists match_name d,
    match_name ∈ matches /\
    d ∈ retained load_events compute_risk_score detect_danger_moments
                 m params match_name /\
    enrich OPPONENT_WEIGHTS BARCA_WEIGHTS match_name
      (compute_risk_score (load_events match_name))
      (_get_opponent_goal_times (load_events match_name)) L d = inr dd.
Proof.
revert called out. induction matches as [|mn matches IH]; intros called out; simpl.
- intros [= <- <-] ?%elem_of_nil. done.
- destruct (per_match _ _ _ _ _ _ _ _ mn) as [e | dds] eqn:Hper; [done|].
  destruct (match_loop _ _ _ _ _ _ _ _ matches) as [called' r] eqn:Hloop.
  intros [= <- Hr]. destruct r as [e | out']; [done|]. injection Hr as <-.
  intros [Hin | Hin]%elem_of_app.
  + unfold per_match in Hper.
    destruct (enrich_all_elem_of _ _ _ _ _ _ _ Hper Hin) as (d & Hd & Hdd).
    exists mn, d. split; [left | done].
  + destruct (IH _ _ eq_refl Hin) as (mn' & d & ? & ? & ?).
    exists mn', d. split; [by right | done].
Qed.



Lemma match_loop_sublist (m : string) (params : DetectParams.t) (L : Z)
    (matches called : list string) (out : list Danger.t) :
  match_loop OPPONENT_WEIGHTS BARCA_WEIGHTS load_events compute_risk_score
             detect_danger_moments "all" params L matches = (called, inr out) ->
  exists out',
    match_loop OPPONENT_WEIGHTS BARCA_WEIGHTS load_events compute_risk_score
               detect_danger_moments m params L matches = (called, inr out') /\
    out' `sublist_of` out.
Proof.
revert called out. induction matches as [|mn matches IH]; intros called out; simpl.
- intros [= <- <-]. by exists [].
- destruct (per_match _ _ _ _ _ "all" _ _ mn) as [e | dds] eqn:Hper; [done|].
  destruct (match_loop _ _ _ _ _ "all" _ _ matches) as [called' r] eqn:Hloop.
  intros [= <- Hr]. destruct r as [e | out0]; [done|]. injection Hr as <-.
  destruct (IH _ _ eq_refl) as (out' & -> & Hout').
  unfold per_match in Hper |- *.
  destruct (enrich_all_sublist mn (compute_risk_score (load_events mn))
              (_get_opponent_goal_times (load_events mn)) L
              (retained load_events compute_risk_score detect_danger_moments
                        m params mn) _ _ (filter_by_mode_sublist m _) Hper)
    as (dds' & -> & Hdds').
  simpl. exists (dds' ++ out'). split; [done | by apply sublist_app].
Qed.

End EnrichFacts.

(** X10.  Every moment returned by
    [build_all_matches_dangers_for_patterns] carries the name of one of
    the given matches, a fingerprint of at most 4 distinct non-empty codes
    none of which is a default stopword, and a [time_to_goal_sec] that, when
    present, lies between 0 and the lookahead. *)
Theorem build_all_matches_moments
    (OPPONENT_WEIGHTS BARCA_WEIGHTS : gmap string Q)
    (load_events : string -> option EventsDF.t)
    (compute_risk_score : option EventsDF.t -> option DataFrame.t)
    (detect_danger_moments :
       option DataFrame.t -> option EventsDF.t -> DetectParams.t -> list Danger.t)
    (matches : list string) (mode : option string)
    (params : DetectParams.t) (time_to_goal_lookahead_sec : Z)
    (called : list string) (out : list Danger.t) (dd : Danger.t) :
  build_all_matches_dangers_for_patterns OPPONENT_WEIGHTS BARCA_WEIGHTS
    load_events compute_risk_score detect_danger_moments
    matches mode params time_to_goal_lookahead_sec = (called, inr out) ->
  dd ∈ out ->
  (exists match_name,
     match_name ∈ matches /\ Danger.match_name dd = Some match_name) /\
  (exists fp,
     Danger.fingerprint_seq dd = Some fp /\
     (length fp <= 4)%nat /\ NoDup fp /\
     forall c, c ∈ fp -> (c ∉ DEFAULT_STOPWORDS) /\ c <> "") /\
  (forall d, Danger.time_to_goal_sec dd = Some d ->
     0 <= d <= time_to_goal_lookahead_sec).
Proof.
unfold build_all_matches_dangers_for_patterns.
destruct (negb _); [done|]. intros Hloop Hdd.
destruct (match_loop_elem_of _ _ _ _ _ _ _ _ _ _ _ _ Hloop Hdd)
  as (mn & d & Hmn & _ & Henrich).
apply enrich_inr in Henrich as (pt & fp & _ & Hname & Hfp & -> & Httg).
split; [by exists mn|]. split.
- eexists. split; [exact Hfp|].
  destruct (fingerprint_basic OPPONENT_WEIGHTS BARCA_WEIGHTS
              (compute_risk_score (load_events mn)) pt
              DEFAULT_FINGERPRINT_WINDOW_SEC (Some DEFAULT_STOPWORDS)
              DEFAULT_TOP_K_CODES ltac:(done)) as (Hlen & Hnd & Hsw).
  split; [apply Nat2Z.inj_le; exact Hlen|]. split; [done|]. exact Hsw.
- intros delta Hdelta. rewrite Httg in Hdelta.
  by eapply next_goal_delta_range.
Qed.


(** X12.  The moments returned for the mode goals or critical are a
    subsequence of those returned for the mode all on the same matches:
    the focus set is part of the baseline set. *)
Theorem build_all_matches_focus_in_baseline
    (OPPONENT_WEIGHTS BARCA_WEIGHTS : gmap string Q)
    (load_events : string -> option EventsDF.t)
    (compute_risk_score : option EventsDF.t -> option DataFrame.t)
    (detect_danger_moments :
       option DataFrame.t -> option EventsDF.t -> DetectParams.t -> list Danger.t)
    (matches : list string) (mode_all mode : option string)
    (params : DetectParams.t) (time_to_goal_lookahead_sec : Z)
    (called : list string) (baseline : list Danger.t) :
  normalize_mode mode_all = "all" ->
  valid_mode (normalize_mode mode) ->
  build_all_matches_dangers_for_patterns OPPONENT_WEIGHTS BARCA_WEIGHTS
    load_events compute_risk_score detect_danger_moments
    matches mode_all params time_to_goal_lookahead_sec
    = (called, inr baseline) ->
  exists focus,
    build_all_matches_dangers_for_patterns OPPONENT_WEIGHTS BARCA_WEIGHTS
      load_events compute_risk_score detect_danger_moments
      matches mode params time_to_goal_lookahead_sec
    = (called, inr focus) /\
    focus `sublist_of` baseline.
Proof.
unfold build_all_matches_dangers_for_patterns, valid_mode.
intros -> Hm. rewrite (bool_decide_eq_true_2 _ Hm). simpl.
apply match_loop_sublist.
Qed.

(** ** What the clusterer keeps *)

Section ClusterInvariant.

Variable threshold : Q.

Lemma cluster_inv_mono (focus : list Danger.t) (d : Danger.t) (c : Pattern.t) :
  cluster_inv focus c -> cluster_inv (focus ++ [d]) c.
Proof.
intros ((d0 & Hd0 & Hr0 & Hs) & Hlen & Hex & Hm & Hms & Hg).
split; [exists d0; split; [apply elem_of_app; by left | done]|].
split; [done|]. split.
{ intros ex Hin. destruct (Hex ex Hin). split; [apply elem_of_app; by left | done]. }
split; [done|]. split; [|done].
intros m Hin. destruct (Hms m Hin) as (d1 & ? & ? & ?).
exists d1. split; [apply elem_of_app; by left | done].
Qed.

Lemma cluster_inv_attach (focus : list Danger.t) (d : Danger.t) (c : Pattern.t) :
  retained_moment d -> cluster_inv focus c ->
  cluster_inv (focus ++ [d]) (attach d c).
Proof.
intros Hret Hc. apply (cluster_inv_mono focus d) in Hc.
destruct Hc as ((d0 & Hd0 & Hr0 & Hs) & Hlen & Hex & Hm & Hms & Hg).
assert (Hd : d ∈ focus ++ [d]) by (apply elem_of_app; right; left).
unfold attach. split; [|split; [|split; [|split; [|split]]]]; simpl.
- destruct (_ <? _)%nat; [by exists d | by exists d0].
- destruct (Nat.ltb_spec (length (Pattern.examples c)) 5);
    rewrite ?length_app; simpl; lia.
- intros ex. destruct (_ <? _)%nat; [|apply Hex].
  intros [Hin | ->%list_elem_of_singleton]%elem_of_app; [by apply Hex | done].
- exists (match_name_of d). apply elem_of_union_l. by apply elem_of_singleton.
- intros m [->%elem_of_singleton | Hin]%elem_of_union; [by exists d | by apply Hms].
- destruct (goal_of d); lia.
Qed.

Lemma cluster_inv_new (focus : list Danger.t) (d : Danger.t) :
  retained_moment d -> cluster_inv (focus ++ [d]) (new_cluster d).
Proof.
intros Hret.
assert (Hd : d ∈ focus ++ [d]) by (apply elem_of_app; right; left).
unfold new_cluster. split; [|split; [|split; [|split; [|split]]]]; simpl.
- by exists d.
- lia.
- by intros ex ->%list_elem_of_singleton.
- exists (match_name_of d). by apply elem_of_singleton.
- intros m ->%elem_of_singleton. by exists d.
- destruct (goal_of d); lia.
Qed.

Lemma build_clusters_inv (focus : list Danger.t) :
  Forall (cluster_inv focus) (build_clusters threshold focus).
Proof.
induction focus as [|d focus IH] using rev_ind; [constructor|].
rewrite build_clusters_snoc. unfold cluster_step.
destruct (skipped d) eqn:Hskip.
{ eapply Forall_impl; [exact IH|]. intros c. apply cluster_inv_mono. }
apply skipped_spec in Hskip.
destruct (place_cases threshold d (build_clusters threshold focus))
  as [(earlier & c & later & Heq & Hearlier & Hc) | Hnone].
- rewrite Heq, place_first by done. rewrite Heq in IH.
  apply Forall_app in IH as [IH1 IH2]. apply Forall_cons in IH2 as [IHc IH2].
  apply Forall_app. split.
  { eapply Forall_impl; [exact IH1|]. intros c'. apply cluster_inv_mono. }
  apply Forall_cons. split; [by apply cluster_inv_attach|].
  eapply Forall_impl; [exact IH2|]. intros c'. apply cluster_inv_mono.
- rewrite place_none by done. apply Forall_app. split.
  { eapply Forall_impl; [exact IH|]. intros c'. apply cluster_inv_mono. }
  apply Forall_cons. split; [by apply cluster_inv_new | constructor].
Qed.

Lemma cluster_step_length (clusters : list Pattern.t) (d : Danger.t) :
  (length (cluster_step threshold clusters d)
   <= length clusters + (if skipped d then 0 else 1))%nat.
Proof.
unfold cluster_step. destruct (skipped d); [lia|].
destruct (place_cases threshold d clusters)
  as [(earlier & c & later & -> & Hearlier & Hc) | Hnone].
- rewrite place_first by done. rewrite !length_app. simpl. lia.
- rewrite place_none by done. rewrite length_app. simpl. lia.
Qed.

Lemma build_clusters_length (focus : list Danger.t) :
  (length (build_clusters threshold focus) <= length (retained_of focus))%nat.
Proof.
induction focus as [|d focus IH] using rev_ind; [done|].
rewrite build_clusters_snoc. unfold retained_of in *.
rewrite List.filter_app, length_app. simpl.
pose proof (cluster_step_length (build_clusters threshold focus) d).
destruct (skipped d); simpl in *; lia.
Qed.

End ClusterInvariant.

(** ** What the scorer returns *)

Section RecordFacts.

Variable lib : StatLib.t.
Variable params : Params.t.

Lemma score_clusters_length (base : list Danger.t) (bgr : Q)
    (clusters : list Pattern.t) (out : list PatternResult.t) :
  score_clusters lib params base bgr clusters = inr out ->
  (length out <= length clusters)%nat.
Proof.
revert out. induction clusters as [|c rest IH]; simpl; intros out.
- by intros [= <-].
- intros (r & _ & H)%bind_inr. apply bind_inr in H as (out' & Hout' & H).
  injection H as <-. specialize (IH _ Hout'). destruct r; simpl; lia.
Qed.

Lemma size_pos_of_elem (X : gset string) (m : string) :
  m ∈ X -> (1 <= size X)%nat.
Proof.
intros Hm. destruct (decide (size X = 0%nat)) as [H0 | ?]; [|lia].
apply size_empty_inv in H0. rewrite H0 in Hm. by apply not_elem_of_empty in Hm.
Qed.

(** The fields a record copies from its cluster. *)
Lemma score_cluster_copies (base : list Danger.t) (bgr : Q) (c : Pattern.t)
    (r : PatternResult.t) :
  score_cluster lib params base bgr c = inr (Some r) ->
  PatternResult.sequence r = Pattern.sequence c /\
  PatternResult.match_count r = Z.of_nat (size (Pattern.matches c)) /\
  PatternResult.frequency r
    = (Z.of_nat (size (Pattern.matches c)), total_matches base) /\
  PatternResult.example_matches r
    = take 5 (stable_sort String.leb (elements (Pattern.matches c))) /\
  PatternResult.examples r = map example_of (Pattern.examples c) /\
  PatternResult.avg_time_to_goal r
    = (let deltas :=
         deltas_of (members (Params.min_subseq_similarity params)
                            (Pattern.sequence c) base) in
       if is_nil deltas then None
       else Some (py_round (inject_Z (sum_Z deltas)
                            / inject_Z (Z.of_nat (length deltas))) 2)).
Proof.
unfold score_cluster. intros H.
destruct (_ <? Params.min_match_frequency params); [done|].
destruct (_ <? Params.min_occurrences params); [done|].
apply bind_inr in H as (pgr & _ & H).
apply bind_inr in H as (lift & _ & H).
destruct (Qlt_bool _ (Params.min_lift params)); [done|].
apply bind_inr in H as (avg & Havg & H).
apply bind_inr in H as (pm & _ & H).
apply bind_inr in H as (log_occ & _ & H).
apply bind_inr in H as (log_target & _ & H).
apply bind_inr in H as (occ_ratio & _ & H).
apply bind_inr in H as (matches_ratio & _ & H).
injection H as <-. simpl. repeat split.
destruct (is_nil _); [by injection Havg as <-|].
apply bind_inr in Havg as (a & Ha%py_div_inr & Havg).
destruct Ha as [_ ->]. by injection Havg as <-.
Qed.

End RecordFacts.

(** X13.  Every pattern [find_patterns] returns has as its sequence the
    fingerprint of a focus moment the clusterer retained, so at least 2
    codes, one of them a cause code; it lists between 1 and 5 example
    moments, all summaries of retained focus moments, and between 1 and 5
    example matches, all match names of focus moments. *)
Theorem find_patterns_wellformed (lib : StatLib.t) (params : Params.t)
    (all_dangers : list Danger.t) (baseline_dangers : option (list Danger.t))
    (out : list PatternResult.t) (r : PatternResult.t) :
  find_patterns lib params all_dangers baseline_dangers = inr out ->
  r ∈ out ->
  (exists d, d ∈ all_dangers /\ PatternResult.sequence r = fingerprint_of d) /\
  (2 <= length (PatternResult.sequence r))%nat /\
  (exists code, code ∈ PatternResult.sequence r /\ code ∈ CAUSE_CODES) /\
  (1 <= length (PatternResult.examples r) <= 5)%nat /\
  (forall ex, ex ∈ PatternResult.examples r ->
     exists d, d ∈ all_dangers /\ retained_moment d /\ ex = example_of d) /\
  (1 <= length (PatternResult.example_matches r) <= 5)%nat /\
  (forall m, m ∈ PatternResult.example_matches r ->
     exists d, d ∈ all_dangers /\ match_name_of d = m) /\
  1 <= PatternResult.match_count r.
Proof.
intros Hout Hr.
destruct (find_patterns_elem_of _ _ _ _ _ _ Hout Hr) as (c & Hc & Hscore).
apply score_cluster_copies in Hscore as (Hseq & Hmc & _ & Hem & Hex & _).
pose proof (build_clusters_inv (Params.min_subseq_similarity params) all_dangers)
  as Hinv.
rewrite Forall_forall in Hinv. specialize (Hinv _ Hc).
destruct Hinv as ((d & Hd & (Hne & Hlen & Hcause) & Hs) & Hexlen & Hexs &
                  (m0 & Hm0) & Hms & _).
rewrite Hseq, Hs, Hex, Hem, Hmc.
split; [by exists d|]. split; [exact Hlen|]. split; [by apply Hcause|].
split; [by rewrite length_map|]. split.
{ intros ex. change (map example_of ?l) with (example_of <$> l).
  intros (d' & -> & Hd')%list_elem_of_fmap. destruct (Hexs _ Hd').
  by exists d'. }
pose proof (size_pos_of_elem _ _ Hm0) as Hsize.
split.
{ rewrite length_take.
  rewrite (Permutation_length (stable_sort_Permutation String.leb _)).
  change (length (elements ?X)) with (size X). lia. }
split; [|lia].
intros m Hm. apply elem_of_take in Hm as (i & Hi & _).
apply list_elem_of_lookup_2 in Hi. apply stable_sort_elem_of in Hi.
apply elem_of_elements in Hi. destruct (Hms _ Hi) as (d' & ? & _ & ?).
by exists d'.
Qed.

Section RateFacts.

Variable params : Params.t.
Variable base : list Danger.t.

Lemma quotient_range (n d : Z) :
  0 <= n <= d -> 0 < d -> (0 <= inject_Z n / inject_Z d <= 1)%Q.
Proof.
intros Hn Hd. assert (0 < inject_Z d)%Q by (by rewrite <- (Zlt_Qlt 0)).
split.
- apply Qle_shift_div_l; [done|]. rewrite Qmult_0_l, <- (Zle_Qle 0). lia.
- apply Qle_shift_div_r; [done|]. rewrite Qmult_1_l, <- Zle_Qle. lia.
Qed.

Lemma base_goals_le_occ : 0 <= base_goals base <= base_occ base.
Proof.
unfold base_goals, base_occ, count_if. split; [lia|]. apply inj_le.
induction base as [|d l IH]; simpl; [lia|].
destruct (_valid_seq d); simpl; [destruct (goal_of d); simpl; lia | lia].
Qed.

Lemma rate_of_base_range : (0 <= rate_of_base base <= 1)%Q.
Proof.
unfold rate_of_base. pose proof base_goals_le_occ.
destruct (Z.eqb_spec (base_occ base) 0); [lra|].
apply quotient_range; lia.
Qed.

Lemma goal_rate_of_range (rep : list string) :
  (0 <= goal_rate_of params base rep <= 1)%Q.
Proof.
unfold goal_rate_of. pose proof (goals_le_occurrences params base rep).
destruct (Z.eqb_spec (occurrences_of params base rep) 0); [lra|].
apply quotient_range; lia.
Qed.

Lemma lift_of_nonneg (rep : list string) : (0 <= lift_of params base rep)%Q.
Proof.
unfold lift_of. destruct (Qlt_bool 0 (rate_of_base base)) eqn:E; [|lra].
apply Qlt_bool_iff in E. pose proof (goal_rate_of_range rep).
apply Qle_shift_div_l; [done | lra].
Qed.

Lemma mean_of_range (rep : list string) : (0 <= mean_of params base rep <= 1)%Q.
Proof.
unfold mean_of, a_of, b_of. pose proof (goals_le_occurrences params base rep).
apply quotient_range; lia.
Qed.

End RateFacts.

(** X14.  In every returned pattern the goal count lies between 0 and
    the occurrence count, the two goal rates and the posterior mean lie
    in [0, 1], and the lift is not negative. *)
Theorem find_patterns_rates (lib : StatLib.t) (params : Params.t)
    (all_dangers : list Danger.t) (baseline_dangers : option (list Danger.t))
    (out : list PatternResult.t) (r : PatternResult.t) :
  find_patterns lib params all_dangers baseline_dangers = inr out ->
  r ∈ out ->
  0 <= PatternResult.goals_in_pattern r <= PatternResult.occurrences r /\
  (0 <= PatternResult.pattern_goal_rate r <= 1)%Q /\
  (0 <= PatternResult.baseline_goal_rate r <= 1)%Q /\
  (0 <= PatternResult.posterior_mean r <= 1)%Q /\
  (0 <= PatternResult.lift r)%Q.
Proof.
intros Hout Hr.
destruct (find_patterns_elem_of _ _ _ _ _ _ Hout Hr) as (c & _ & Hscore).
apply score_cluster_Some in Hscore. cbn zeta in Hscore.
destruct Hscore as (_ & _ & _ & _ & _ & _ & _ & _ & _ & Hocc & Hgoals & Hpgr &
                    Hbgr & Hlift & Hpm & _).
rewrite Hocc, Hgoals, Hpgr, Hbgr, Hlift, Hpm.
split; [apply goals_le_occurrences|].
split; [apply (py_round_range 0 1), goal_rate_of_range|].
split; [apply (py_round_range 0 1), rate_of_base_range|].
split; [apply (py_round_range 0 1), mean_of_range|].
rewrite <- (py_round_Z 0 3). apply py_round_mono, lift_of_nonneg.
Qed.

Section FrequencyFacts.

Variable threshold : Q.

Lemma cluster_matches_le_total (focus base : list Danger.t) (c : Pattern.t) :
  (forall d, d ∈ focus -> retained_moment d ->
     exists b, b ∈ base /\ match_name_of b = match_name_of d) ->
  c ∈ build_clusters threshold focus ->
  1 <= Z.of_nat (size (Pattern.matches c)) <= total_matches base.
Proof.
intros Hbase Hc.
pose proof (build_clusters_inv threshold focus) as Hinv.
rewrite Forall_forall in Hinv. specialize (Hinv _ Hc).
destruct Hinv as (_ & _ & _ & (m0 & Hm0) & Hms & _).
pose proof (size_pos_of_elem _ _ Hm0). split; [lia|].
unfold total_matches. apply inj_le, subseteq_size.
intros m Hm. destruct (Hms _ Hm) as (d & Hd & Hret & <-).
destruct (Hbase d Hd Hret) as (b & Hb & <-).
apply elem_of_list_to_set. change (map ?f ?l) with (f <$> l).
by apply list_elem_of_fmap_2.
Qed.

End FrequencyFacts.

(** X15.  When every retained focus moment comes from a match that also
    occurs in the baseline set (as when no baseline set is given), the
    frequency ["m/t matches"] of a returned pattern has [1 <= m <= t]. *)
Theorem find_patterns_frequency (lib : StatLib.t) (params : Params.t)
    (all_dangers : list Danger.t) (baseline_dangers : option (list Danger.t))
    (out : list PatternResult.t) (r : PatternResult.t) :
  let base := default all_dangers baseline_dangers in
  (forall d, d ∈ all_dangers -> retained_moment d ->
     exists b, b ∈ base /\ match_name_of b = match_name_of d) ->
  find_patterns lib params all_dangers baseline_dangers = inr out ->
  r ∈ out ->
  1 <= fst (PatternResult.frequency r) <= snd (PatternResult.frequency r) /\
  fst (PatternResult.frequency r) = PatternResult.match_count r.
Proof.
intros base Hbase Hout Hr.
destruct (find_patterns_elem_of _ _ _ _ _ _ Hout Hr) as (c & Hc & Hscore).
apply score_cluster_copies in Hscore as (_ & Hmc & Hfreq & _).
fold base in Hfreq. rewrite Hfreq, Hmc. simpl. split; [|done].
by eapply cluster_matches_le_total.
Qed.

Section SkipFacts.

Lemma build_clusters_nothing_retained (threshold : Q) (focus : list Danger.t) :
  (forall d, d ∈ focus -> skipped d = true) ->
  build_clusters threshold focus = [].
Proof.
induction focus as [|d focus IH] using rev_ind; intros H; [done|].
rewrite build_clusters_snoc. unfold cluster_step.
rewrite (H d) by (apply elem_of_app; right; left).
apply IH. intros d' Hd'. apply H. apply elem_of_app. by left.
Qed.

End SkipFacts.

(** X16.  [find_patterns] returns at most one pattern per retained focus
    moment; when the clusterer retains no focus moment (an empty focus
    set, or fingerprints that are all too short or without a cause code)
    it returns the empty list, whatever the baseline set and thresholds. *)
Theorem find_patterns_count (lib : StatLib.t) (params : Params.t)
    (all_dangers : list Danger.t) (baseline_dangers : option (list Danger.t)) :
  (forall out,
     find_patterns lib params all_dangers baseline_dangers = inr out ->
     (length out <= length (retained_of all_dangers))%nat) /\
  ((forall d, d ∈ all_dangers -> ~ retained_moment d) ->
   find_patterns lib params all_dangers baseline_dangers = inr []).
Proof.
split.
- unfold find_patterns. intros out H.
  apply bind_inr in H as (bgr & _ & H).
  apply bind_inr in H as (scored & Hscored & H). injection H as <-.
  rewrite (Permutation_length (stable_sort_Permutation _ _)).
  etrans; [by eapply score_clusters_length|]. apply build_clusters_length.
- intros Hnone. unfold find_patterns.
  rewrite baseline_goal_rate_total. cbn [bind].
  rewrite build_clusters_nothing_retained; [done|].
  intros d Hd. destruct (skipped d) eqn:E; [done|].
  apply skipped_spec in E. by destruct (Hnone d Hd).
Qed.

(** ** Thresholds under which similarity is equality *)

Section ExactSimilarity.

Variable threshold : Q.
Variable n : nat.
Hypothesis n_pos : (0 < n)%nat.
Hypothesis threshold_lo : (ratio (n - 1) n < threshold)%Q.
Hypothesis threshold_hi : (threshold <= 1)%Q.

Lemma Zpos_of_nat (d : nat) : (0 < d)%nat -> Z.pos (Pos.of_nat d) = Z.of_nat d.
Proof.
intros Hd. destruct d; [lia|].
by rewrite <- Pos.of_nat_succ, Zpos_P_of_succ_nat, Nat2Z.inj_succ.
Qed.

Lemma ratio_lt (n1 d1 n2 d2 : nat) :
  (0 < d1)%nat -> (0 < d2)%nat ->
  (ratio n1 d1 < ratio n2 d2)%Q -> (n1 * d2 < n2 * d1)%nat.
Proof.
intros H1 H2. rewrite !ratio_Qmake by done. unfold Qlt. simpl.
rewrite !Zpos_of_nat by done. lia.
Qed.

Lemma threshold_pos : (0 < threshold)%Q.
Proof.
eapply Qle_lt_trans; [|exact threshold_lo].
apply ratio_range; [done | lia].
Qed.

Lemma similar_exact (a b : list string) :
  (length a <= n)%nat -> (length b <= n)%nat ->
  similar threshold a b = true <-> a = b.
Proof.
intros Ha Hb. unfold similar. rewrite Qle_bool_iff. split.
- intros Hsim. pose proof threshold_pos as Hpos.
  destruct (decide (a = [])) as [-> | Hna].
  { destruct b; [done|]. simpl in Hsim. lra. }
  destruct (decide (b = [])) as [-> | Hnb].
  { destruct a; [done|]. simpl in Hsim. lra. }
  rewrite subseq_similarity_nonempty in Hsim by done.
  pose proof (longer_of_length a b) as Hle.
  pose proof (longer_of_pos a b Hna Hnb) as Hl.
  assert (Hln : (length (longer_of a b) <= n)%nat).
  { unfold longer_of. by destruct (_ <=? _)%nat. }
  destruct (_is_subsequence _ _) eqn:Hsub.
  + apply is_subsequence_sublist in Hsub.
    assert (Hlt : (ratio (n - 1) n
                   < ratio (length (shorter_of a b)) (length (longer_of a b)))%Q)
      by (eapply Qlt_le_trans; [exact threshold_lo | exact Hsim]).
    apply ratio_lt in Hlt; [|done|done].
    assert (Heq : length (shorter_of a b) = length (longer_of a b)) by nia.
    apply sublist_same_length in Hsub; [|done].
    revert Hsub. unfold shorter_of, longer_of.
    by destruct (_ <=? _)%nat.
  + rewrite ratio_0 in Hsim. lra.
- intros ->. by rewrite subseq_similarity_refl.
Qed.

Lemma group_of_snoc_other (focus : list Danger.t) (d : Danger.t)
    (rep : list string) :
  same_fingerprint rep d = false ->
  group_of (focus ++ [d]) rep = group_of focus rep.
Proof.
intros H. unfold group_of. rewrite List.filter_app. simpl. rewrite H.
by rewrite app_nil_r.
Qed.

Lemma take_snoc_cap {A : Type} (k : nat) (l : list A) (x : A) :
  take k (l ++ [x])
  = if (length (take k l) <? k)%nat then take k l ++ [x] else take k l.
Proof.
destruct (Nat.ltb_spec (length (take k l)) k) as [Hlt | Hge];
  rewrite length_take in *.
- rewrite (take_ge l) by lia. apply take_ge. rewrite length_app. simpl. lia.
- apply take_app_le. lia.
Qed.

Lemma group_of_snoc_same (focus : list Danger.t) (d : Danger.t) :
  skipped d = false ->
  group_of (focus ++ [d]) (fingerprint_of d)
  = attach d (group_of focus (fingerprint_of d)).
Proof.
intros Hskip. unfold group_of, attach. cbn [Pattern.sequence Pattern.matches
  Pattern.examples Pattern.goals_in_pattern].
assert (Hsame : same_fingerprint (fingerprint_of d) d = true).
{ unfold same_fingerprint. by rewrite Hskip, bool_decide_eq_true_2. }
rewrite List.filter_app. simpl. rewrite Hsame.
rewrite Nat.ltb_irrefl. f_equal.
- rewrite map_app, list_to_set_app_L. simpl.
  rewrite (right_id_L ∅ (∪)). apply (comm_L (∪)).
- apply take_snoc_cap.
- unfold count_if. rewrite List.filter_app, length_app. simpl.
  destruct (goal_of d); simpl; lia.
Qed.

Lemma group_of_new (focus : list Danger.t) (d : Danger.t) :
  skipped d = false ->
  List.filter (same_fingerprint (fingerprint_of d)) focus = [] ->
  group_of (focus ++ [d]) (fingerprint_of d) = new_cluster d.
Proof.
intros Hskip Hnone. rewrite group_of_snoc_same by done.
unfold group_of, attach, new_cluster. rewrite Hnone. simpl.
rewrite Nat.ltb_irrefl. f_equal. apply (right_id_L ∅ (∪)).
Qed.

Lemma build_clusters_exact_inv (focus : list Danger.t) :
  (forall d, d ∈ focus -> (length (fingerprint_of d) <= n)%nat) ->
  NoDup (map Pattern.sequence (build_clusters threshold focus)) /\
  Forall (fun c => c = group_of focus (Pattern.sequence c))
         (build_clusters threshold focus) /\
  (forall d, d ∈ focus -> skipped d = false ->
     fingerprint_of d ∈ map Pattern.sequence (build_clusters threshold focus)).
Proof.
induction focus as [|d focus IH] using rev_ind; intros Hlen.
{ split; [constructor|]. split; [constructor|]. by intros d Hd%elem_of_nil. }
destruct IH as (Hnd & Hall & Hcov).
{ intros d' Hd'. apply Hlen, elem_of_app. by left. }
assert (Hd : d ∈ focus ++ [d]) by (apply elem_of_app; right; left).
pose proof (build_clusters_inv threshold focus) as Hinv.
rewrite build_clusters_snoc. unfold cluster_step.
set (clusters := build_clusters threshold focus) in *.
assert (Hclen : forall c, c ∈ clusters -> (length (Pattern.sequence c) <= n)%nat).
{ intros c Hc. rewrite Forall_forall in Hinv.
  destruct (Hinv c Hc) as ((d0 & Hd0 & _ & ->) & _).
  apply Hlen, elem_of_app. by left. }
destruct (skipped d) eqn:Hskip.
{ split; [done|]. split.
  - eapply Forall_impl; [exact Hall|]. intros c Hc.
    rewrite group_of_snoc_other; [done|].
    unfold same_fingerprint. by rewrite Hskip.
  - intros d' [Hd' | ->%list_elem_of_singleton]%elem_of_app Hs; [auto|].
    congruence. }
destruct (place_cases threshold d clusters)
  as [(earlier & c & later & Heq & Hearlier & Hc) | Hnone].
- rewrite Heq, place_first by done.
  assert (Hcin : c ∈ clusters).
  { rewrite Heq. apply elem_of_app. right. left. }
  assert (Hfp : fingerprint_of d = Pattern.sequence c).
  { apply similar_exact; [by apply Hlen | by apply Hclen|].
    by apply similar_spec. }
  assert (Hseq : Pattern.sequence (attach d c) = Pattern.sequence c).
  { unfold attach. simpl. by destruct (_ <? _)%nat. }
  assert (Hmap : map Pattern.sequence (earlier ++ attach d c :: later)
                 = map Pattern.sequence clusters).
  { by rewrite Heq, !map_app, !map_cons, Hseq. }
  rewrite Hmap. split; [done|]. split.
  + rewrite Heq in Hall, Hnd.
    rewrite map_app, map_cons in Hnd.
    apply NoDup_app in Hnd as (_ & Hdisj & Hnd2).
    apply NoDup_cons in Hnd2 as (Hnotin & _).
    apply Forall_app in Hall as [Hall1 Hall2].
    apply Forall_cons in Hall2 as [Hcg Hall2].
    apply Forall_app. split; [|apply Forall_cons; split].
    * rewrite Forall_forall in Hall1. apply Forall_forall. intros c' Hc'.
      rewrite group_of_snoc_other; [by apply Hall1|].
      unfold same_fingerprint. rewrite bool_decide_eq_false_2, andb_false_r; [done|].
      intros Heq'. apply (Hdisj (Pattern.sequence c')).
      { change (map ?f ?l) with (f <$> l). by apply list_elem_of_fmap_2. }
      rewrite <- Heq', Hfp. left.
    * rewrite Hseq, <- Hfp, group_of_snoc_same by done.
      rewrite Hfp, <- Hcg. done.
    * rewrite Forall_forall in Hall2. apply Forall_forall. intros c' Hc'.
      rewrite group_of_snoc_other; [by apply Hall2|].
      unfold same_fingerprint. rewrite bool_decide_eq_false_2, andb_false_r; [done|].
      intros Heq'. apply Hnotin. rewrite <- Hfp, Heq'.
      change (map ?f ?l) with (f <$> l). by apply list_elem_of_fmap_2.
  + intros d' [Hd' | ->%list_elem_of_singleton]%elem_of_app Hs; [auto|].
    rewrite Hfp. change (map ?f ?l) with (f <$> l).
    by apply list_elem_of_fmap_2.
- rewrite place_none by done.
  assert (Hfresh : fingerprint_of d ∉ map Pattern.sequence clusters).
  { change (map ?f ?l) with (f <$> l).
    intros (c & Hfp & Hc)%list_elem_of_fmap.
    rewrite Forall_forall in Hnone. apply (Hnone c Hc).
    apply similar_spec, similar_exact; [by apply Hlen | by apply Hclen | done]. }
  rewrite map_app. simpl. split; [|split].
  + apply NoDup_app. split; [done|]. split; [|apply NoDup_singleton].
    intros s Hs ->%list_elem_of_singleton. done.
  + apply Forall_app. split.
    * rewrite Forall_forall in Hall. apply Forall_forall. intros c' Hc'.
      rewrite group_of_snoc_other; [by apply Hall|].
      unfold same_fingerprint. rewrite bool_decide_eq_false_2, andb_false_r; [done|].
      intros Heq'. apply Hfresh. rewrite Heq'.
      change (map ?f ?l) with (f <$> l). by apply list_elem_of_fmap_2.
    * apply Forall_cons. split; [|constructor]. simpl.
      symmetry. apply group_of_new; [done|].
      destruct (List.filter _ focus) as [|d' l] eqn:E; [done|].
      assert (Hin : In d' (List.filter (same_fingerprint (fingerprint_of d)) focus))
        by (rewrite E; by left).
      apply List.filter_In in Hin as [Hin Hsame].
      unfold same_fingerprint in Hsame.
      apply andb_true_iff in Hsame as [Hs Hfp].
      apply negb_true_iff in Hs. apply bool_decide_eq_true in Hfp.
      destruct Hfresh. rewrite <- Hfp. apply Hcov; [|done].
      by apply list_elem_of_In.
  + intros d' [Hd' | ->%list_elem_of_singleton]%elem_of_app Hs.
    * apply elem_of_app. left. by apply Hcov.
    * apply elem_of_app. right. left.
Qed.

End ExactSimilarity.



(** ** Time to goal and exact counts *)

Section AverageFacts.

Lemma fold_add_shift (l : list Z) (a : Z) :
  fold_left Z.add l a = a + fold_left Z.add l 0.
Proof.
revert a. induction l as [|x l IH]; intros a; cbn [fold_left]; [lia|].
rewrite (IH (a + x)), (IH (0 + x)). lia.
Qed.

Lemma sum_Z_bounds (l : list Z) (L : Z) :
  Forall (fun t => 0 <= t <= L) l ->
  0 <= sum_Z l <= L * Z.of_nat (length l).
Proof.
unfold sum_Z. induction 1 as [|x l Hx _ IH]; [simpl; lia|].
cbn [fold_left length]. rewrite (fold_add_shift l (0 + x)). lia.
Qed.

Lemma deltas_of_elem_of (ms : list Danger.t) (t : Z) :
  t ∈ deltas_of ms ->
  exists d, d ∈ ms /\ goal_of d = true /\ Danger.time_to_goal_sec d = Some t.
Proof.
unfold deltas_of. intros (d & Hd & Ht)%list_elem_of_omap.
exists d. destruct (goal_of d); [done | discriminate].
Qed.

Lemma deltas_of_no_goal (ms : list Danger.t) :
  count_if goal_of ms = 0 -> deltas_of ms = [].
Proof.
unfold count_if, deltas_of. induction ms as [|d ms IH]; simpl; [done|].
destruct (goal_of d); simpl; [lia | exact IH].
Qed.

Lemma members_elem_of (threshold : Q) (rep : list string)
    (base : list Danger.t) (d : Danger.t) :
  d ∈ members threshold rep base -> d ∈ base.
Proof.
unfold members. rewrite !list_elem_of_In, List.filter_In. tauto.
Qed.

Lemma filter_filter_length {A : Type} (p q : A -> bool) (l : list A) :
  length (List.filter q (List.filter p l))
  = length (List.filter (fun x => p x && q x) l).
Proof.
induction l as [|x l IH]; simpl; [done|].
destruct (p x); simpl; [|exact IH]. destruct (q x); simpl; by rewrite IH.
Qed.

Lemma score_cluster_avg_range (lib : StatLib.t) (params : Params.t)
    (base : list Danger.t) (bgr : Q) (L : Z) (c : Pattern.t)
    (r : PatternResult.t) (avg : Q) :
  (forall d t, d ∈ base -> Danger.time_to_goal_sec d = Some t -> 0 <= t <= L) ->
  score_cluster lib params base bgr c = inr (Some r) ->
  PatternResult.avg_time_to_goal r = Some avg ->
  (0 <= avg <= inject_Z L)%Q.
Proof.
intros Hrange Hscore.
apply score_cluster_copies in Hscore as (_ & _ & _ & _ & _ & Havg).
cbn zeta in Havg. rewrite Havg. clear Havg.
set (ms := members _ _ _).
destruct (is_nil (deltas_of ms)) eqn:E; [done|].
intros [= <-].
assert (Hall : Forall (fun t => 0 <= t <= L) (deltas_of ms)).
{ apply Forall_forall. intros t (d & Hd & _ & Ht)%deltas_of_elem_of.
  apply (Hrange d t); [|done]. by eapply members_elem_of. }
pose proof (sum_Z_bounds _ _ Hall) as Hsum.
assert (Hlen : 0 < Z.of_nat (length (deltas_of ms))).
{ destruct (deltas_of ms); [discriminate | simpl; lia]. }
apply (py_round_range 0 L).
assert (0 < inject_Z (Z.of_nat (length (deltas_of ms))))%Q
  by (by rewrite <- (Zlt_Qlt 0)).
split.
- apply Qle_shift_div_l; [done|]. rewrite Qmult_0_l, <- (Zle_Qle 0). lia.
- apply Qle_shift_div_r; [done|]. rewrite <- inject_Z_mult, <- Zle_Qle. lia.
Qed.

End AverageFacts.

(** X19.  When every time to goal recorded in the baseline set lies in
    [0, L], as the orchestrator records them for the look-ahead [L], the
    average time to goal of a returned pattern lies in [0, L] as well;
    and a pattern without a goal in the baseline set has no average time
    to goal. *)
Theorem find_patterns_avg_time (lib : StatLib.t) (params : Params.t)
    (all_dangers : list Danger.t) (baseline_dangers : option (list Danger.t))
    (L : Z) (out : list PatternResult.t) (r : PatternResult.t) :
  (forall d t, d ∈ default all_dangers baseline_dangers ->
     Danger.time_to_goal_sec d = Some t -> 0 <= t <= L) ->
  find_patterns lib params all_dangers baseline_dangers = inr out ->
  r ∈ out ->
  (forall avg, PatternResult.avg_time_to_goal r = Some avg ->
     (0 <= avg <= inject_Z L)%Q) /\
  (PatternResult.goals_in_pattern r = 0 ->
     PatternResult.avg_time_to_goal r = None).
Proof.
intros Hrange Hout Hr.
destruct (find_patterns_elem_of _ _ _ _ _ _ Hout Hr) as (c & _ & Hscore).
split; [intros avg; by eapply score_cluster_avg_range|].
pose proof (score_cluster_Some _ _ _ _ _ Hscore) as Hsome. cbn zeta in Hsome.
destruct Hsome as (_ & _ & _ & _ & _ & _ & _ & _ & _ & _ & Hgoals & _).
apply score_cluster_copies in Hscore as (_ & _ & _ & _ & _ & Havg).
cbn zeta in Havg. rewrite Havg, Hgoals. unfold goals_of.
intros H0. by rewrite (deltas_of_no_goal _ H0).
Qed.


(** ** When the scorer raises *)

Section RaiseFacts.

Variable lib : StatLib.t.
Variable params : Params.t.
Variable base : list Danger.t.






End RaiseFacts.


(** ** Formatter *)

Section FormatterFacts.

Context {V : Type}.
Variable py_None : V.
Variable py_empty_list : V.

Lemma llm_fields_lookup (p : gmap string V) (key : string) :
  key ∈ LLM_KEYS ->
  llm_fields py_None py_empty_list p !! key
  = Some (dict_get p key
            (if bool_decide (key ∈ LLM_LIST_KEYS) then py_empty_list
             else py_None)).
Proof.
unfold LLM_KEYS. intros H.
repeat (apply elem_of_cons in H as [-> | H]; [reflexivity|]).
by apply elem_of_nil in H.
Qed.

Lemma llm_fields_dom (p : gmap string V) :
  dom (llm_fields py_None py_empty_list p) = list_to_set LLM_KEYS.
Proof. unfold llm_fields. by rewrite dom_list_to_map_L. Qed.

End FormatterFacts.

(** X22.  [format_patterns_for_llm] formats the patterns that
    [patterns[:top_n]] keeps, in their order: the first [top_n] for
    [top_n >= 0], all but the last [-top_n] otherwise, and none when
    [patterns] is [None].  Every dictionary it builds has exactly the
    twelve keys of the schema; a key holds the value of the input
    pattern, or, where the pattern lacks it, the empty list for
    [sequence] and [example_matches] and [None] for the others. *)
Theorem format_patterns_for_llm_spec {V : Type} (py_None py_empty_list : V)
    (patterns : option (list (gmap string V))) (top_n : Z) :
  let ps := default [] patterns in
  let out := format_patterns_for_llm py_None py_empty_list patterns top_n in
  length out
  = (if top_n <? 0 then (length ps - Z.to_nat (- top_n))%nat
     else Nat.min (Z.to_nat top_n) (length ps)) /\
  (forall i o, out !! i = Some o ->
     exists p, ps !! i = Some p /\
       dom o = list_to_set LLM_KEYS /\
       forall key, key ∈ LLM_KEYS ->
         o !! key
         = Some (default (if bool_decide (key ∈ LLM_LIST_KEYS)
                          then py_empty_list else py_None) (p !! key))).
Proof.
intros ps out. unfold out, format_patterns_for_llm. fold ps. split.
- rewrite length_map. unfold py_slice_to.
  destruct (top_n <? 0); rewrite length_take; lia.
- intros i o. change (map ?f ?l) with (f <$> l).
  rewrite list_lookup_fmap.
  destruct (py_slice_to ps top_n !! i) as [p|] eqn:E; [|done].
  intros [= <-]. exists p. split.
  + unfold py_slice_to in E. destruct (top_n <? 0);
      by apply lookup_take_Some in E as [? _].
  + split; [apply llm_fields_dom|]. apply llm_fields_lookup.
Qed.

(** ** The pipeline of the test runner *)

Section MainFacts.

Variables OPPONENT_WEIGHTS BARCA_WEIGHTS : gmap string Q.
Variable load_events : string -> option EventsDF.t.
Variable compute_risk_score : option EventsDF.t -> option DataFrame.t.
Variable detect_danger_moments :
  option DataFrame.t -> option EventsDF.t -> DetectParams.t -> list Danger.t.
Variable lib : StatLib.t.

Lemma build_with_defaults_loop (matches : list string) (m : string)
    (r : result (list Danger.t)) :
  m ∈ ["all"; "goals"; "critical"] ->
  normalize_mode (Some m) = m ->
  build_with_defaults OPPONENT_WEIGHTS BARCA_WEIGHTS load_events
    compute_risk_score detect_danger_moments matches m = r ->
  exists called,
    match_loop OPPONENT_WEIGHTS BARCA_WEIGHTS load_events compute_risk_score
      detect_danger_moments m DEFAULT_DETECT_PARAMS
      DEFAULT_TIME_TO_GOAL_LOOKAHEAD_SEC matches = (called, r).
Proof.
intros Hm Hnorm. unfold build_with_defaults,
  build_all_matches_dangers_for_patterns.
rewrite Hnorm, (bool_decide_eq_true_2 _ Hm). simpl negb. cbv iota.
destruct (match_loop _ _ _ _ _ _ _ _ matches) as [called r'].
simpl. intros <-. by exists called.
Qed.

Lemma match_loop_moment (m : string) (params : DetectParams.t) (L : Z)
    (matches called : list string) (out : list Danger.t) (dd : Danger.t) :
  match_loop OPPONENT_WEIGHTS BARCA_WEIGHTS load_events compute_risk_score
             detect_danger_moments m params L matches = (called, inr out) ->
  dd ∈ out ->
  (length (fingerprint_of dd) <= 4)%nat /\ NoDup (fingerprint_of dd) /\
  (forall t, Danger.time_to_goal_sec dd = Some t -> 0 <= t <= L) /\
  (m = "goals" -> goal_of dd = true).
Proof.
intros Hloop Hdd.
destruct (match_loop_elem_of _ _ _ _ _ _ _ _ _ _ _ _ Hloop Hdd)
  as (mn & d & Hmn & Hd & Henrich).
pose proof (enrich_spec _ _ _ _ _ _ _ _ Henrich)
  as (_ & _ & _ & _ & Hgoal & _).
apply enrich_inr in Henrich as (pt & fp & _ & Hname & Hfp & -> & Httg).
destruct (fingerprint_basic OPPONENT_WEIGHTS BARCA_WEIGHTS
            (compute_risk_score (load_events mn)) pt
            DEFAULT_FINGERPRINT_WINDOW_SEC (Some DEFAULT_STOPWORDS)
            DEFAULT_TOP_K_CODES ltac:(done)) as (Hlen & Hnd & _).
unfold fingerprint_of. rewrite Hfp. simpl.
split; [apply Nat2Z.inj_le; exact Hlen|]. split; [done|]. split.
- intros t Ht. rewrite Httg in Ht. by eapply next_goal_delta_range.
- intros ->. unfold retained in Hd. rewrite filter_by_mode_spec in Hd.
  apply list_elem_of_filter in Hd as [Hkept _].
  unfold kept_by_mode in Hkept. rewrite decide_True in Hkept by done.
  unfold goal_of. by rewrite Hgoal, Hkept.
Qed.

Lemma filter_length_sublist {A : Type} (p q : A -> bool) (l1 l2 : list A) :
  l1 `sublist_of` l2 ->
  (forall x, x ∈ l1 -> p x = true -> q x = true) ->
  (length (List.filter p l1) <= length (List.filter q l2))%nat.
Proof.
induction 1 as [|x l1 l2 Hsub IH|x l1 l2 Hsub IH]; intros Himp; simpl.
- lia.
- assert (IH' := IH (fun y Hy => Himp y (list_elem_of_further _ _ _ Hy))).
  destruct (p x) eqn:Hp.
  + rewrite (Himp x (list_elem_of_here _ _) Hp). simpl. lia.
  + destruct (q x); simpl; lia.
- specialize (IH Himp). destruct (q x); simpl; lia.
Qed.

Lemma size_list_to_set_le (l : list string) :
  (size (list_to_set l : gset string) <= length l)%nat.
Proof.
induction l as [|x l IH]; simpl; [done|].
rewrite size_union_alt, size_singleton.
assert (size (list_to_set l ∖ {[x]} : gset string)
        <= size (list_to_set l : gset string))%nat; [|lia].
apply subseteq_size. intros y Hy. by apply elem_of_difference in Hy as [? _].
Qed.

Lemma main_threshold :
  (ratio (4 - 1) 4 < Params.min_subseq_similarity MAIN_PARAMS <= 1)%Q.
Proof. split; [reflexivity | discriminate]. Qed.

End MainFacts.

(** X23.  The patterns of [main], which takes the goal moments of all
    matches as focus set and all their moments as baseline set with the
    arguments 0.85, 2, 3 and 1.15.  Every pattern has a sequence of 2 to 4
    distinct codes, comes from [m >= 2] of the [t >= m] matches of the
    frequency ["m/t matches"], occurs at least 3 times in the baseline set,
    has at least [m] goals there, a lift of at least 1.15 also after
    rounding, and an average time to goal between 0 and 120 seconds. *)
Theorem main_patterns_spec
    (OPPONENT_WEIGHTS BARCA_WEIGHTS : gmap string Q)
    (load_events : string -> option EventsDF.t)
    (compute_risk_score : option EventsDF.t -> option DataFrame.t)
    (detect_danger_moments :
       option DataFrame.t -> option EventsDF.t -> DetectParams.t -> list Danger.t)
    (lib : StatLib.t) (matches : list string)
    (out : list PatternResult.t) (r : PatternResult.t) :
  main_patterns OPPONENT_WEIGHTS BARCA_WEIGHTS load_events compute_risk_score
    detect_danger_moments lib matches = inr out ->
  r ∈ out ->
  (2 <= length (PatternResult.sequence r) <= 4)%nat /\
  NoDup (PatternResult.sequence r) /\
  2 <= PatternResult.match_count r /\
  fst (PatternResult.frequency r) = PatternResult.match_count r /\
  PatternResult.match_count r <= snd (PatternResult.frequency r) /\
  3 <= PatternResult.occurrences r /\
  PatternResult.match_count r <= PatternResult.goals_in_pattern r /\
  PatternResult.goals_in_pattern r <= PatternResult.occurrences r /\
  (115 # 100 <= PatternResult.lift r)%Q /\
  (forall avg, PatternResult.avg_time_to_goal r = Some avg ->
     (0 <= avg <= 120)%Q).
Proof.
unfold main_patterns. intros Hmain Hr.
apply bind_inr in Hmain as (baseline & Hbase & Hmain).
apply bind_inr in Hmain as (goals & Hgoals & Hfind).
apply build_with_defaults_loop in Hbase as (called & Hbase); [|by left|done].
apply build_with_defaults_loop in Hgoals as (called' & Hgoals);
  [|right; left|done].
destruct (match_loop_sublist _ _ _ _ _ "goals" _ _ _ _ _ Hbase)
  as (goals' & Hgoals' & Hsub).
rewrite Hgoals in Hgoals'. injection Hgoals' as _ <-.
pose proof (fun dd => match_loop_moment _ _ _ _ _ _ _ _ _ _ _ dd Hbase) as Hbm.
pose proof (fun dd => match_loop_moment _ _ _ _ _ _ _ _ _ _ _ dd Hgoals) as Hgm.
destruct (find_patterns_elem_of _ _ _ _ _ _ Hfind Hr) as (c & Hc & Hscore).
cbn [default] in Hscore.
pose proof (score_cluster_Some _ _ _ _ _ Hscore) as Hsome. cbn zeta in Hsome.
destruct Hsome as (Hfreq & Hminocc & Hminlift & _ & _ & _ & Hseq & Hmc & Hfr &
                   Hocc & Hg & _ & _ & Hlift & _).
pose proof main_threshold as [Hlo Hhi].
destruct (build_clusters_exact_inv _ 4 ltac:(lia) Hlo Hhi goals)
  as (_ & Hgroup & _); [intros d Hd; by apply Hgm|].
rewrite Forall_forall in Hgroup. specialize (Hgroup c Hc).
pose proof (build_clusters_inv (Params.min_subseq_similarity MAIN_PARAMS) goals)
  as Hinv.
rewrite Forall_forall in Hinv.
destruct (Hinv c Hc) as ((d0 & Hd0 & (_ & Hlen0 & _) & Hs0) & _).
assert (Hle : 1 <= Z.of_nat (size (Pattern.matches c)) <= total_matches baseline).
{ eapply cluster_matches_le_total; [|exact Hc].
  intros d Hd _. exists d. split; [|done].
  eapply elem_of_sublist; [exact Hd | exact Hsub]. }
rewrite Hseq, Hmc, Hfr, Hocc, Hg, Hlift. simpl.
split; [rewrite Hs0; split; [exact Hlen0 | by apply Hgm]|].
split; [rewrite Hs0; by apply Hgm|].
split; [exact Hfreq|]. split; [done|]. split; [lia|]. split; [exact Hminocc|].
split; [|split; [apply goals_le_occurrences|split]].
- rewrite Hgroup at 1. unfold group_of, goals_of, count_if. simpl.
  unfold members. rewrite filter_filter_length.
  etrans; [apply inj_le, size_list_to_set_le|]. rewrite length_map.
  apply inj_le, (filter_length_sublist _ _ _ _ Hsub).
  intros d Hd Hsame. unfold same_fingerprint in Hsame.
  apply andb_true_iff in Hsame as [Hskip Hfp].
  apply negb_true_iff, skipped_spec in Hskip as (Hne & Hlen & _).
  apply bool_decide_eq_true in Hfp.
  destruct (Hgm d Hd) as (_ & _ & _ & Hgoal). rewrite (Hgoal eq_refl).
  rewrite andb_true_r. apply andb_true_iff. split.
  + unfold _valid_seq. apply Nat.leb_le in Hlen. rewrite Hlen.
    by destruct (fingerprint_of d).
  + rewrite Hfp. unfold similar. apply Qle_bool_iff.
    by rewrite subseq_similarity_refl.
- assert (H115 : (py_round (115 # 100) 3 == 115 # 100)%Q) by reflexivity.
  rewrite <- H115. by apply py_round_mono.
- intros avg Havg.
  change 120%Q with (inject_Z DEFAULT_TIME_TO_GOAL_LOOKAHEAD_SEC).
  eapply score_cluster_avg_range; [|exact Hscore|exact Havg].
  intros d t Hd. by apply Hbm.
Qed.


(** ** The further properties on the worked inputs *)

Import MoreExamples.

(** A fingerprint without repetition is its own deduplication. *)
Lemma dedupe_preserve_order_fixed_witness : _dedupe_preserve_order fpA = fpA.
Proof. apply (proj1 (dedupe_preserve_order_fixed fpA)). decide_it. Defined.

(** Two of four distinct codes are kept for a top-K of 2. *)
Lemma compress_sequence_keep_order_spec_witness :
  Z.of_nat (length (_compress_sequence_keep_order weights weights
                      ["PROGRESSION"; "HIGH PRESS"; "COUNTER";
                       "CREATING CHANCES"] 2)) = 2.
Proof.
pose proof (compress_sequence_keep_order_spec weights weights
              ["PROGRESSION"; "HIGH PRESS"; "COUNTER"; "CREATING CHANCES"] 2)
  as H.
cbn zeta in H. destruct H as (_ & H & _). apply H. lia.
Defined.

(** Two distinct codes fit into a top-K of 4. *)
Lemma compress_sequence_keep_order_fits_witness :
  _compress_sequence_keep_order weights weights fpA 4
  = _dedupe_preserve_order fpA.
Proof.
apply compress_sequence_keep_order_fits. vm_compute. intros H. discriminate H.
Defined.

(** A list of one string gives at most one code. *)
Lemma normalize_active_events_spec_witness :
  (length (_normalize_active_events_to_codes (AEList [IStr "COUNTER"])) <= 1)%nat.
Proof.
exact (proj2 (proj2 (proj2 (proj2 (proj2 normalize_active_events_spec))))
         _ [IStr "COUNTER"] eq_refl).
Defined.

(** The first code of the fingerprint of the five-second timeline. *)
Lemma build_fingerprint_sequence_source_witness :
  "PROGRESSION" <> "" /\
  exists df row,
    Some timeline = Some df /\ row ∈ DataFrame.rows df /\
    100 - 60 <= Row.timestamp_sec row <= 100 /\
    "PROGRESSION" ∈ _normalize_active_events_to_codes (Row.active_events row).
Proof.
apply (build_fingerprint_sequence_source weights weights (Some timeline)
         100 60 None 2).
vm_compute. left.
Defined.

(** A goal 30 seconds after the peak. *)
Lemma next_goal_delta_sec_spec_witness :
  0 <= 30 <= 120 /\ 100 + 30 ∈ [130] /\
  forall g, g ∈ [130] -> 100 <= g -> 100 + 30 <= g.
Proof.
apply (proj1 (next_goal_delta_sec_spec 100 [130] 120
                ltac:(repeat constructor)) 30).
reflexivity.
Defined.


(** The goal of ["FC Barcelona"] at second 200 is an opponent goal time. *)
Lemma get_opponent_goal_times_team_name_witness :
  200 ∈ _get_opponent_goal_times (Some events_barcelona).
Proof.
apply (get_opponent_goal_times_team_name events_barcelona barcelona_goal
         "start_sec" 200);
  [reflexivity | decide_it | decide_it | left | reflexivity..].
Defined.

(** The first moment of the one-match run. *)
Lemma build_all_matches_moments_witness :
  exists out dd,
    build_all_matches_dangers_for_patterns weights weights load_events
      compute_risk_score detect_danger_moments
      ["m1"] (Some "all") detect_params 120 = (["m1"], inr out) /\
    dd ∈ out /\
    (forall d, Danger.time_to_goal_sec dd = Some d -> 0 <= d <= 120).
Proof.
eexists _, _. split; [vm_compute; reflexivity|]. split; [left|].
lazymatch goal with
| |- forall d, Danger.time_to_goal_sec ?dd = _ -> _ =>
    pose proof (build_all_matches_moments weights weights load_events
                  compute_risk_score detect_danger_moments
                  ["m1"] (Some "all") detect_params 120 _ _ dd
                  ltac:(vm_compute; reflexivity) ltac:(left)) as H
end.
exact (proj2 (proj2 H)).
Defined.


(** The goal moments of the one-match run are among all its moments. *)
Lemma build_all_matches_focus_in_baseline_witness :
  exists called baseline,
    build_all_matches_dangers_for_patterns weights weights load_events
      compute_risk_score detect_danger_moments
      ["m1"] (Some "all") detect_params 120 = (called, inr baseline) /\
    exists focus,
      build_all_matches_dangers_for_patterns weights weights load_events
        compute_risk_score detect_danger_moments
        ["m1"] (Some "goals") detect_params 120 = (called, inr focus) /\
      focus `sublist_of` baseline.
Proof.
eexists _, _. split; [vm_compute; reflexivity|].
apply (build_all_matches_focus_in_baseline weights weights load_events
         compute_risk_score detect_danger_moments ["m1"]
         (Some "all") (Some "goals") detect_params 120);
  [reflexivity | decide_it | vm_compute; reflexivity].
Defined.

(** The first pattern of the two-pattern input is well formed. *)
Lemma find_patterns_wellformed_witness :
  exists out r,
    find_patterns RefLib.lib Params.default focus2 (Some base2) = inr out /\
    r ∈ out /\
    (2 <= length (PatternResult.sequence r))%nat /\
    (1 <= length (PatternResult.examples r) <= 5)%nat /\
    1 <= PatternResult.match_count r.
Proof.
eexists _, _. split; [vm_compute; reflexivity|]. split; [left|].
lazymatch goal with
| |- (2 <= length (PatternResult.sequence ?r))%nat /\ _ =>
    pose proof (find_patterns_wellformed RefLib.lib Params.default focus2
                  (Some base2) _ r ltac:(vm_compute; reflexivity)
                  ltac:(left)) as H
end.
destruct H as (_ & Hlen & _ & Hex & _ & _ & _ & Hmc).
split; [exact Hlen|]. split; [exact Hex | exact Hmc].
Defined.

(** The rates of the first pattern of the two-pattern input. *)
Lemma find_patterns_rates_witness :
  exists out r,
    find_patterns RefLib.lib Params.default focus2 (Some base2) = inr out /\
    r ∈ out /\
    0 <= PatternResult.goals_in_pattern r <= PatternResult.occurrences r /\
    (0 <= PatternResult.pattern_goal_rate r <= 1)%Q /\
    (0 <= PatternResult.lift r)%Q.
Proof.
eexists _, _. split; [vm_compute; reflexivity|]. split; [left|].
lazymatch goal with
| |- _ <= PatternResult.goals_in_pattern ?r <= _ /\ _ =>
    pose proof (find_patterns_rates RefLib.lib Params.default focus2
                  (Some base2) _ r ltac:(vm_compute; reflexivity)
                  ltac:(left)) as H
end.
destruct H as (Hg & Hr & _ & _ & Hl).
split; [exact Hg|]. split; [exact Hr | exact Hl].
Defined.

(** The frequency of the first pattern of the two-pattern input. *)
Lemma find_patterns_frequency_witness :
  exists out r,
    find_patterns RefLib.lib Params.default focus2 (Some base2) = inr out /\
    r ∈ out /\
    1 <= fst (PatternResult.frequency r) <= snd (PatternResult.frequency r).
Proof.
eexists _, _. split; [vm_compute; reflexivity|]. split; [left|].
assert (Hbase : forall d, d ∈ focus2 -> retained_moment d ->
          exists b, b ∈ base2 /\ match_name_of b = match_name_of d).
{ intros d Hd _. exists d. split; [|done].
  unfold base2. apply elem_of_app. by left. }
lazymatch goal with
| |- _ <= fst (PatternResult.frequency ?r) <= _ =>
    pose proof (find_patterns_frequency RefLib.lib Params.default focus2
                  (Some base2) _ r Hbase ltac:(vm_compute; reflexivity)
                  ltac:(left)) as H
end.
exact (proj1 H).
Defined.

(** A focus set with a one-code fingerprint yields nothing. *)
Lemma find_patterns_count_witness :
  find_patterns RefLib.lib Params.default
    [moment "m1" true ["PROGRESSION"]] None = inr [].
Proof.
apply (proj2 (find_patterns_count RefLib.lib Params.default
                [moment "m1" true ["PROGRESSION"]] None)).
intros d ->%list_elem_of_singleton (_ & Hlen & _).
unfold MIN_PATTERN_LEN in Hlen. simpl in Hlen. lia.
Defined.



(** The average time to goal of the first pattern of the two-pattern
    input. *)
Lemma find_patterns_avg_time_witness :
  exists out r,
    find_patterns RefLib.lib Params.default focus2 (Some base2) = inr out /\
    r ∈ out /\
    forall avg, PatternResult.avg_time_to_goal r = Some avg ->
      (0 <= avg <= inject_Z 120)%Q.
Proof.
eexists _, _. split; [vm_compute; reflexivity|]. split; [left|].
assert (Hrange : forall d t, d ∈ base2 ->
          Danger.time_to_goal_sec d = Some t -> 0 <= t <= 120).
{ intros d t Hd Ht. cbv [base2 focus2 app] in Hd.
  repeat (apply elem_of_cons in Hd as [-> | Hd];
          [simpl in Ht; first [discriminate | injection Ht as <-; lia]|]).
  by apply elem_of_nil in Hd. }
lazymatch goal with
| |- forall avg, PatternResult.avg_time_to_goal ?r = _ -> _ =>
    pose proof (find_patterns_avg_time RefLib.lib Params.default focus2
                  (Some base2) 120 _ r Hrange ltac:(vm_compute; reflexivity)
                  ltac:(left)) as H
end.
exact (proj1 H).
Defined.



(** One of two pattern dictionaries is formatted for a top-N of 1. *)
Lemma format_patterns_for_llm_spec_witness :
  length (format_patterns_for_llm 0%nat 1%nat (Some [pattern_dict; ∅]) 1)
  = 1%nat.
Proof.
exact (proj1 (format_patterns_for_llm_spec 0%nat 1%nat
                (Some [pattern_dict; ∅]) 1)).
Defined.

(** The pattern of three matches with one goal moment each. *)
Lemma main_patterns_spec_witness :
  exists out r,
    main_patterns weights weights load_events compute_risk_score
      detect_three RefLib.lib ["m1"; "m2"; "m3"] = inr out /\
    r ∈ out /\
    (2 <= length (PatternResult.sequence r) <= 4)%nat /\
    PatternResult.match_count r <= PatternResult.goals_in_pattern r /\
    (115 # 100 <= PatternResult.lift r)%Q.
Proof.
eexists _, _. split; [vm_compute; reflexivity|]. split; [left|].
lazymatch goal with
| |- (_ <= length (PatternResult.sequence ?r) <= _)%nat /\ _ =>
    pose proof (main_patterns_spec weights weights load_events
                  compute_risk_score detect_three RefLib.lib
                  ["m1"; "m2"; "m3"] _ r ltac:(vm_compute; reflexivity)
                  ltac:(left)) as H
end.
destruct H as (Hlen & _ & _ & _ & _ & _ & Hg & _ & Hl & _).
split; [exact Hlen|]. split; [exact Hg | exact Hl].
Defined.

